(** * mcp-client: the query handler, the server connection and the entry point

    A shallow embedding of [mcp_client/handlers.py], [mcp_client/mcp_client.py]
    and [mcp_client/__main__.py].  Coroutines are run to completion one after
    the other (the source awaits every call before it goes on), so an [async def]
    is a function on an explicit state; a Python exception is an outcome of the
    function, and what was done before the exception was raised stays done. *)

From Stdlib Require Import String Ascii List Bool ZArith Lia DecimalString.
Import ListNotations.
#[local] Set Warnings "-register-all".
Local Open Scope string_scope.
Local Open Scope list_scope.

(** ** Python values *)

(** The line feed, written [\n] in the source. *)
Definition newline : string := String (ascii_of_nat 10) EmptyString.

(** ["\n".join(parts)] *)
Definition join_lines (parts : list string) : string := String.concat newline parts.

(** The values [json.loads] returns and the dict literals of the source.
    Floating-point numbers are left out. *)
Inductive json : Type :=
| JNull
| JBool (b : bool)
| JInt (z : Z)
| JStr (s : string)
| JList (items : list json)
| JDict (members : list (string * json)).

(** Truth value of an optional string: [None] and [""] are false. *)
Definition truthy (o : option string) : bool :=
  match o with
  | Some (String _ _) => true
  | _ => false
  end.

(** [o or default] for an optional string. *)
Definition or_else (o : option string) (default : string) : string :=
  match o with
  | Some (String c s) => String c s
  | _ => default
  end.

(** ** Exceptions

    Only instances of [Exception] are modelled; [RuntimeError] is the one class
    the source raises and catches by name. *)
Inductive exn_class : Type :=
| RuntimeError
| JSONDecodeError
| IndexError
| AttributeError
| OtherException (name : string).

(** An exception: its class and [str(e)]; [ExnFrom] is one raised
    [from cause], which it keeps as [e.__cause__]. *)
Inductive exn : Type :=
| Exn (cls : exn_class) (text : string)
| ExnFrom (cls : exn_class) (text : string) (cause : exn).

Definition exn_cls (e : exn) : exn_class :=
  match e with
  | Exn c _ => c
  | ExnFrom c _ _ => c
  end.

(** [str(e)] *)
Definition str_exn (e : exn) : string :=
  match e with
  | Exn _ t => t
  | ExnFrom _ t _ => t
  end.

(** [e.__cause__] *)
Definition exn_cause (e : exn) : option exn :=
  match e with
  | Exn _ _ => None
  | ExnFrom _ _ c => Some c
  end.

(** [isinstance(e, RuntimeError)] *)
Definition is_RuntimeError (e : exn) : bool :=
  match exn_cls e with
  | RuntimeError => true
  | _ => false
  end.

(** [raise RuntimeError(text)] *)
Definition runtime_error (text : string) : exn := Exn RuntimeError text.

(** [raise RuntimeError(text) from e] *)
Definition runtime_error_from (text : string) (e : exn) : exn :=
  ExnFrom RuntimeError text e.

(** How a call ends. *)
Inductive outcome (A : Type) : Type :=
| Returned (a : A)
| Raised (e : exn).
Arguments Returned {A} a.
Arguments Raised {A} e.

(** ** The data exchanged with the MCP server and with OpenAI *)

(** A tool as [list_tools] describes it.  [inputSchema = None] stands for an
    object without the attribute (what [getattr]'s default is for);
    [Some JNull] is the attribute set to [None]. *)
Record Tool : Type := {
  name : string;
  description : option string;
  inputSchema : option json
}.

(** A part of a tool result; only [TextContent] has [.text]. *)
Inductive ContentPart : Type :=
| TextContent (text : string)
| OtherContent (class_name : string).

Record CallToolResult : Type := { content : list ContentPart }.

(** [tool_call.function] and [tool_call] of a chat completion. *)
Record Function : Type := { fn_name : string; fn_arguments : option string }.
Record ToolCall : Type := { id : string; function : Function }.

(** [response.choices[i].message] *)
Record ChatMessage : Type := {
  msg_content : option string;
  msg_tool_calls : option (list ToolCall)
}.

Record ChatCompletion : Type := { choices : list ChatMessage }.

(** The dicts of the [messages] list, by their ["role"]. *)
Inductive message : Type :=
| user_message (content : string)
| assistant_message (content : string) (tool_calls : list ToolCall)
| tool_message (tool_call_id : string) (content : string).

(** The keyword arguments of [chat.completions.create]; [tools = None] when
    the call passes no [tools]. *)
Record create_args : Type := {
  model : string;
  max_tokens : Z;
  messages : list message;
  tools : option (list json)
}.

Record OpenAI : Type := { api_key : string }.

Record StdioServerParameters : Type := {
  command : string;
  args : list string;
  env : option (list (string * string))
}.

(** A prompt or a resource as it is listed: name and description. *)
Record Member : Type := { member_name : string; member_description : option string }.

(** [parse_args()]'s namespace. *)
Record Namespace : Type := { ns_server_path : string; ns_members : bool; ns_chat : bool }.

(** ** The collaborators

    What the source calls and does not define: the JSON decoder and [str] of
    the decoded value, the process environment and the file system, the
    OpenAI client, the MCP session behind the exit stack, and the chat loop.
    An effectful collaborator answers from a [world] and leaves a new one. *)
Class Runtime : Type := {
  world : Type;
  ClientSession : Type;
  Streams : Type;
  json_loads : string -> outcome json;
  format_value : json -> string;
  os_getenv : string -> world -> option string;
  sys_executable : string;
  sys_platform : string;
  Path_resolve : string -> world -> string;
  Path_exists : string -> world -> bool;
  chat_completions_create : OpenAI -> create_args -> world -> outcome ChatCompletion * world;
  stdio_client_enter : StdioServerParameters -> world -> outcome Streams * world;
  ClientSession_enter : Streams -> world -> outcome ClientSession * world;
  ClientSession_initialize : ClientSession -> world -> outcome unit * world;
  ClientSession_list_tools : ClientSession -> world -> outcome (list Tool) * world;
  ClientSession_list_prompts : ClientSession -> world -> outcome (list Member) * world;
  ClientSession_list_resources : ClientSession -> world -> outcome (list Member) * world;
  ClientSession_call_tool : ClientSession -> string -> json -> world -> outcome CallToolResult * world;
  exit_stack_aclose : world -> outcome unit * world;
  chat_run_chat : ClientSession -> OpenAI -> world -> outcome unit * world
}.

(** ** State, trace and the monad of the embedding *)

Section Embedding.
Context {R : Runtime}.

(** What a run did, in the order it did it. *)
Inductive event : Type :=
| EvExists (path : string) (found : bool)
| EvSpawn (server : StdioServerParameters) (out : outcome Streams)
| EvSession (out : outcome ClientSession)
| EvInitialize (out : outcome unit)
| EvAclose (out : outcome unit)
| EvListTools (out : outcome (list Tool))
| EvListPrompts (out : outcome (list Member))
| EvListResources (out : outcome (list Member))
| EvCreate (request : create_args) (out : outcome ChatCompletion)
| EvCallTool (tool_name : string) (tool_args : json) (out : outcome CallToolResult)
| EvChat (out : outcome unit)
| EvPrint (line : string).

(** [class_client_session] is the class-level slot [MCPClient.client_session]. *)
Record state : Type := {
  st_world : world;
  st_trace : list event;
  class_client_session : option ClientSession
}.

Definition M (A : Type) : Type := state -> outcome A * state.

Definition ret {A} (a : A) : M A := fun s => (Returned a, s).

Definition raise {A} (e : exn) : M A := fun s => (Raised e, s).

Definition bind {A B} (c : M A) (k : A -> M B) : M B :=
  fun s =>
    match c s with
    | (Returned a, s') => k a s'
    | (Raised e, s') => (Raised e, s')
    end.

(** [try: c  except Exception as e: handler e] *)
Definition try_except {A} (c : M A) (handler : exn -> M A) : M A :=
  fun s =>
    match c s with
    | (Returned a, s') => (Returned a, s')
    | (Raised e, s') => handler e s'
    end.

(** [try: c  except RuntimeError as e: handler e] *)
Definition try_except_RuntimeError {A} (c : M A) (handler : exn -> M A) : M A :=
  fun s =>
    match c s with
    | (Returned a, s') => (Returned a, s')
    | (Raised e, s') => if is_RuntimeError e then handler e s' else (Raised e, s')
    end.

(** The outcome of a pure call, raised or returned. *)
Definition lift {A} (o : outcome A) : M A := fun s => (o, s).

Definition record_event (ev : event) (s : state) (w : world) : state :=
  {| st_world := w;
     st_trace := st_trace s ++ [ev];
     class_client_session := class_client_session s |}.

(** A call to a collaborator, written to the trace with its outcome. *)
Definition call {A} (f : world -> outcome A * world) (ev : outcome A -> event) : M A :=
  fun s => let (o, w) := f (st_world s) in (o, record_event (ev o) s w).

(** [print(line)] *)
Definition print (line : string) : M unit :=
  fun s => (Returned tt, record_event (EvPrint line) s (st_world s)).

End Embedding.

Declare Scope py_scope.
Delimit Scope py_scope with py.
Notation "x <- c ;; k" := (bind c (fun x => k))
  (at level 61, c at next level, right associativity) : py_scope.
Notation "' pat <- c ;; k" := (bind c (fun pat => k))
  (at level 61, pat pattern, c at next level, right associativity) : py_scope.
Notation "c ;; k" := (bind c (fun _ => k))
  (at level 61, right associativity) : py_scope.
Local Open Scope py_scope.

(** ** [mcp_client/handlers.py] *)

Module Handlers.
Section WithRuntime.
Context {R : Runtime}.

Definition MODEL : string := "gpt-4o-mini".
Definition MAX_TOKENS : Z := 1000.

(** An [OpenAIQueryHandler]: its two attributes. *)
Record OpenAIQueryHandler : Type := {
  client_session : ClientSession;
  openai : OpenAI
}.

(** What [_execute_tool] returns: [{"log": ..., "message": ...}]. *)
Record tool_result : Type := { log : string; tool_turn : message }.

(** [OpenAIQueryHandler.__init__] *)
Definition __init__ (client_session : ClientSession) : M OpenAIQueryHandler :=
  fun s =>
    match os_getenv "OPENAI_API_KEY" (st_world s) with
    | Some (String c k) =>
        (Returned {| client_session := client_session;
                     openai := {| api_key := String c k |} |}, s)
    | _ =>
        (Raised (runtime_error "Error: OPENAI_API_KEY environment variable not set"), s)
    end.

(** One entry of the list [_get_tools] builds. *)
Definition format_tool (tool : Tool) : json :=
  JDict
    [ ("type", JStr "function");
      ("function",
        JDict
          [ ("name", JStr (name tool));
            ("description", JStr (or_else (description tool) "No description"));
            ("parameters",
              match inputSchema tool with
              | Some schema => schema
              | None => JDict [("type", JStr "object"); ("properties", JDict [])]
              end) ]) ].

(** [OpenAIQueryHandler._get_tools] *)
Definition _get_tools (self : OpenAIQueryHandler) : M (list json) :=
  response <- call (ClientSession_list_tools (client_session self)) EvListTools ;;
  ret (map format_tool response).

(** [part.text] *)
Definition text_of (part : ContentPart) : outcome string :=
  match part with
  | TextContent text => Returned text
  | OtherContent class_name =>
      Raised (Exn AttributeError ("'" ++ class_name ++ "' object has no attribute 'text'")%string)
  end.

(** [OpenAIQueryHandler._execute_tool] *)
Definition _execute_tool (self : OpenAIQueryHandler) (tool_call : ToolCall) : M tool_result :=
  let tool_name := fn_name (function tool_call) in
  tool_args <- lift (json_loads (or_else (fn_arguments (function tool_call)) "{}")) ;;
  ' (content, log) <-
    try_except
      (result <- call (ClientSession_call_tool (client_session self) tool_name tool_args)
                      (EvCallTool tool_name tool_args) ;;
       content <- match content result with
                  | part :: _ => lift (text_of part)
                  | [] => ret ""
                  end ;;
       ret (content, ("[Used " ++ tool_name ++ "(" ++ format_value tool_args ++ ")]")%string))
      (fun e =>
         let content := ("Error: " ++ str_exn e)%string in
         ret (content, ("[" ++ content ++ "]")%string)) ;;
  ret {| log := log; tool_turn := tool_message (id tool_call) content |}.

(** The [for tool_call in tool_calls] loop of [process_query]. *)
Fixpoint execute_tools (self : OpenAIQueryHandler) (tool_calls : list ToolCall)
    (result_parts : list string) (messages : list message)
  : M (list string * list message) :=
  match tool_calls with
  | [] => ret (result_parts, messages)
  | tool_call :: rest =>
      tool_result <- _execute_tool self tool_call ;;
      execute_tools self rest
        (result_parts ++ [log tool_result]) (messages ++ [tool_turn tool_result])
  end.

(** [response.choices[0].message] *)
Definition first_message (response : ChatCompletion) : outcome ChatMessage :=
  match choices response with
  | m :: _ => Returned m
  | [] => Raised (Exn IndexError "list index out of range")
  end.

(** [parts.append(content)] when [content] is truthy. *)
Definition append_if_present (parts : list string) (content : option string) : list string :=
  if truthy content then parts ++ [or_else content ""] else parts.

(** [OpenAIQueryHandler.process_query] *)
Definition process_query (self : OpenAIQueryHandler) (query : string) : M string :=
  let messages := [user_message query] in
  tools <- _get_tools self ;;
  initial_response <-
    call (chat_completions_create (openai self)
            {| model := MODEL; max_tokens := MAX_TOKENS;
               messages := messages; tools := Some tools |})
         (EvCreate {| model := MODEL; max_tokens := MAX_TOKENS;
                      messages := messages; tools := Some tools |}) ;;
  current_message <- lift (first_message initial_response) ;;
  let result_parts := append_if_present [] (msg_content current_message) in
  match msg_tool_calls current_message with
  | Some (tool_call :: rest) =>
      let tool_calls := tool_call :: rest in
      let messages :=
        messages ++ [assistant_message (or_else (msg_content current_message) "") tool_calls] in
      ' (result_parts, messages) <- execute_tools self tool_calls result_parts messages ;;
      final_response <-
        call (chat_completions_create (openai self)
                {| model := MODEL; max_tokens := MAX_TOKENS;
                   messages := messages; tools := None |})
             (EvCreate {| model := MODEL; max_tokens := MAX_TOKENS;
                          messages := messages; tools := None |}) ;;
      final_message <- lift (first_message final_response) ;;
      ret ("Assistant: "
           ++ join_lines (append_if_present result_parts (msg_content final_message)))%string
  | _ => ret ("Assistant: " ++ join_lines result_parts)%string
  end.

End WithRuntime.
End Handlers.

(** ** [mcp_client/mcp_client.py] *)

Module Mcp_client.
Section WithRuntime.
Context {R : Runtime}.

(** An [MCPClient].  Its [exit_stack] is part of the world: the contexts it
    has entered are closed by [exit_stack_aclose]. *)
Record MCPClient : Type := { server_path : string }.

(** [Path(p).resolve()] *)
Definition resolve (p : string) : M string :=
  fun s => (Returned (Path_resolve p (st_world s)), s).

(** [path.exists()] *)
Definition exists_ (path : string) : M bool :=
  fun s =>
    let found := Path_exists path (st_world s) in
    (Returned found, record_event (EvExists path found) s (st_world s)).

(** [self.client_session], read from the class. *)
Definition get_client_session : M ClientSession :=
  fun s =>
    match class_client_session s with
    | Some session => (Returned session, s)
    | None =>
        (Raised (Exn AttributeError "'MCPClient' object has no attribute 'client_session'"), s)
    end.

(** [cls.client_session = session] *)
Definition set_client_session (session : ClientSession) : M unit :=
  fun s =>
    (Returned tt,
     {| st_world := st_world s;
        st_trace := st_trace s;
        class_client_session := Some session |}).

(** [MCPClient._connect_to_server] *)
Definition _connect_to_server (self : MCPClient) : M ClientSession :=
  server_path <- resolve (server_path self) ;;
  found <- exists_ server_path ;;
  if negb found then
    raise (runtime_error ("Server script not found: " ++ server_path))
  else
    let '(command, args) :=
      if (sys_platform =? "win32")%string
      then (sys_executable, [server_path])
      else (sys_executable, [server_path]) in
    let server := {| command := command; args := args; env := None |} in
    try_except
      (streams <- call (stdio_client_enter server) (EvSpawn server) ;;
       client_session <- call (ClientSession_enter streams) EvSession ;;
       call (ClientSession_initialize client_session) EvInitialize ;;
       ret client_session)
      (fun e => raise (runtime_error_from ("Failed to connect to server: " ++ str_exn e) e)).

(** [MCPClient.__aenter__] *)
Definition __aenter__ (self : MCPClient) : M MCPClient :=
  session <- _connect_to_server self ;;
  set_client_session session ;;
  ret self.

(** [MCPClient.__aexit__] *)
Definition __aexit__ (self : MCPClient) : M unit :=
  call exit_stack_aclose EvAclose.

(** [async with self as client: body client]: [__aexit__] runs once
    [__aenter__] has returned, however the body ends; it returns [None], so an
    exception of the body goes on. *)
Definition async_with {A} (self : MCPClient) (body : MCPClient -> M A) : M A :=
  client <- __aenter__ self ;;
  fun s =>
    let (r, s1) := body client s in
    match __aexit__ self s1 with
    | (Returned _, s2) => (r, s2)
    | (Raised e, s2) => (Raised e, s2)
    end.

(** [c * n] for a one-character string. *)
Fixpoint repeat_string (c : string) (n : nat) : string :=
  match n with
  | O => ""
  | S n' => c ++ repeat_string c n'
  end.

(** [section.upper()], on ASCII. *)
Definition upper_ascii (c : ascii) : ascii :=
  let n := nat_of_ascii c in
  if (97 <=? n)%nat && (n <=? 122)%nat then ascii_of_nat (n - 32) else c.

Fixpoint upper (s : string) : string :=
  match s with
  | EmptyString => EmptyString
  | String c rest => String (upper_ascii c) (upper rest)
  end.

(** [str(len(items))] *)
Definition str_len {A} (items : list A) : string :=
  NilZero.string_of_uint (Nat.to_uint (length items)).

(** The [for item in items] loop of [_list_section]. *)
Fixpoint print_items (items : list (string * option string)) : M unit :=
  match items with
  | [] => ret tt
  | (item_name, item_description) :: rest =>
      print (" > " ++ item_name ++ " - " ++ or_else item_description "No description") ;;
      print_items rest
  end.

(** [MCPClient._list_section]; [list_method] answers with the listed
    section's items, each by name and description. *)
Definition _list_section (section : string) (list_method : M (list (string * option string)))
  : M unit :=
  try_except
    (items <- list_method ;;
     match items with
     | _ :: _ =>
         print (newline ++ upper section ++ " (" ++ str_len items ++ "):") ;;
         print (repeat_string "-" 30) ;;
         print_items items
     | [] => print (newline ++ upper section ++ ": None available")
     end)
    (fun e => print (newline ++ upper section ++ ": Error - " ++ str_exn e)).

Definition tool_item (t : Tool) : string * option string := (name t, description t).
Definition member_item (m : Member) : string * option string :=
  (member_name m, member_description m).

(** [MCPClient.list_all_members] *)
Definition list_all_members (self : MCPClient) : M unit :=
  print "MCP Server Members" ;;
  print (repeat_string "=" 50) ;;
  session <- get_client_session ;;
  _list_section "tools"
    (r <- call (ClientSession_list_tools session) EvListTools ;; ret (map tool_item r)) ;;
  _list_section "prompts"
    (r <- call (ClientSession_list_prompts session) EvListPrompts ;; ret (map member_item r)) ;;
  _list_section "resources"
    (r <- call (ClientSession_list_resources session) EvListResources ;; ret (map member_item r)) ;;
  print (newline ++ repeat_string "=" 50).

(** [MCPClient.run_chat].  The loop of [chat.run_chat], which reads lines
    until it reads [quit], is a collaborator: all that is kept of it is that
    it is entered with the handler and ends or raises. *)
Definition run_chat (self : MCPClient) : M unit :=
  try_except_RuntimeError
    (session <- get_client_session ;;
     handler <- Handlers.__init__ session ;;
     call (chat_run_chat (Handlers.client_session handler) (Handlers.openai handler)) EvChat)
    (fun e => print (str_exn e)).

End WithRuntime.
End Mcp_client.

(** ** [mcp_client/__main__.py] *)

Module Main.
Section WithRuntime.
Context {R : Runtime}.

(** [main], from the namespace [parse_args()] returned; [ns_server_path] is
    the text of [args.server_path]. *)
Definition main (args : Namespace) : M unit :=
  found <- Mcp_client.exists_ (ns_server_path args) ;;
  if negb found then
    print ("Error: Server script '" ++ ns_server_path args ++ "' not found")
  else
    try_except_RuntimeError
      (Mcp_client.async_with {| Mcp_client.server_path := ns_server_path args |}
         (fun client =>
            if ns_members args then Mcp_client.list_all_members client
            else if ns_chat args then Mcp_client.run_chat client
            else ret tt))
      (fun e => print (str_exn e)).

(** The status the interpreter exits with after [asyncio.run(main())]: 0 when
    [main] returns, 1 when an exception leaves it. *)
Definition exit_status {A} (o : outcome A) : Z :=
  match o with
  | Returned _ => 0
  | Raised _ => 1
  end.

(** [cli_main], and the [if __name__ == "__main__"] block: the process runs
    [main] and exits. *)
Definition cli_main (args : Namespace) (s : state) : Z * state :=
  let (o, s') := main args s in (exit_status o, s').

End WithRuntime.
End Main.

(** ** Reading a run *)

Section Observations.
Context {R : Runtime}.

(** A state with nothing done yet. *)
Definition fresh (w : world) : state :=
  {| st_world := w; st_trace := []; class_client_session := None |}.

(** The calls to [chat.completions.create], each with its outcome. *)
Definition engine_calls (tr : list event) : list (create_args * outcome ChatCompletion) :=
  flat_map (fun ev => match ev with EvCreate q o => [(q, o)] | _ => [] end) tr.

(** The calls to [call_tool], each with its outcome. *)
Definition tool_calls_made (tr : list event) : list (string * json * outcome CallToolResult) :=
  flat_map (fun ev => match ev with EvCallTool n a o => [(n, a, o)] | _ => [] end) tr.

(** The servers [stdio_client] was asked to start. *)
Definition spawn_attempts (tr : list event) : list StdioServerParameters :=
  flat_map (fun ev => match ev with EvSpawn p _ => [p] | _ => [] end) tr.

(** What was printed. *)
Definition printed (tr : list event) : list string :=
  flat_map (fun ev => match ev with EvPrint l => [l] | _ => [] end) tr.

(** The request of the first call of [process_query]. *)
Definition first_request (query : string) (catalog : list Tool) : create_args :=
  {| model := Handlers.MODEL; max_tokens := Handlers.MAX_TOKENS;
     messages := [user_message query];
     tools := Some (map Handlers.format_tool catalog) |}.

(** The conversation after the tool round: the query, the assistant turn
    with its pending invocations, and the tool turns. *)
Definition conversation (query : string) (m : ChatMessage) (tool_calls : list ToolCall)
    (tool_turns : list message) : list message :=
  [user_message query; assistant_message (or_else (msg_content m) "") tool_calls]
  ++ tool_turns.

(** The request of the second call of [process_query]. *)
Definition second_request (query : string) (m : ChatMessage) (tool_calls : list ToolCall)
    (tool_turns : list message) : create_args :=
  {| model := Handlers.MODEL; max_tokens := Handlers.MAX_TOKENS;
     messages := conversation query m tool_calls tool_turns;
     tools := None |}.

(** [IndexError] of [choices[0]] on an empty list. *)
Definition index_error : exn := Exn IndexError "list index out of range".

(** The argument document of an invocation, as [_execute_tool] decodes it
    before its [try]. *)
Definition decode_arguments (tool_call : ToolCall) : outcome json :=
  json_loads (or_else (fn_arguments (function tool_call)) "{}").

Definition decodable (tool_call : ToolCall) : Prop :=
  exists tool_args, decode_arguments tool_call = Returned tool_args.

(** The two texts [_execute_tool] makes of an exception. *)
Definition error_content (e : exn) : string := "Error: " ++ str_exn e.
Definition error_log (e : exn) : string := "[" ++ error_content e ++ "]".

Definition used_log (tool_name : string) (tool_args : json) : string :=
  "[Used " ++ tool_name ++ "(" ++ format_value tool_args ++ ")]".

(** Content and log of an invocation, from the outcome of its [call_tool]. *)
Definition settled (tool_name : string) (tool_args : json) (out : outcome CallToolResult)
  : string * string :=
  match out with
  | Returned result =>
      match content result with
      | [] => ("", used_log tool_name tool_args)
      | part :: _ =>
          match Handlers.text_of part with
          | Returned text => (text, used_log tool_name tool_args)
          | Raised e => (error_content e, error_log e)
          end
      end
  | Raised e => (error_content e, error_log e)
  end.

(** The exception raised inside the [try] of [_execute_tool], if any: by
    [call_tool], or by [.text] on a first part that has none. *)
Definition execution_failure (out : outcome CallToolResult) : option exn :=
  match out with
  | Raised e => Some e
  | Returned result =>
      match content result with
      | part :: _ =>
          match Handlers.text_of part with
          | Raised e => Some e
          | Returned _ => None
          end
      | [] => None
      end
  end.

(** The event, the log segment and the tool turn of an invocation whose
    arguments decoded to [tool_args] and whose [call_tool] ended as [out]. *)
Definition invocation_event (tool_call : ToolCall) (tool_args : json)
    (out : outcome CallToolResult) : event :=
  EvCallTool (fn_name (function tool_call)) tool_args out.

Definition invocation_log (tool_call : ToolCall) (tool_args : json)
    (out : outcome CallToolResult) : string :=
  snd (settled (fn_name (function tool_call)) tool_args out).

Definition invocation_turn (tool_call : ToolCall) (tool_args : json)
    (out : outcome CallToolResult) : message :=
  tool_message (id tool_call) (fst (settled (fn_name (function tool_call)) tool_args out)).

(** An executed invocation: the call, its decoded arguments, its outcome. *)
Definition executed : Type := ToolCall * json * outcome CallToolResult.

Definition executed_event (x : executed) : event :=
  let '(tool_call, tool_args, out) := x in invocation_event tool_call tool_args out.
Definition executed_log (x : executed) : string :=
  let '(tool_call, tool_args, out) := x in invocation_log tool_call tool_args out.
Definition executed_turn (x : executed) : message :=
  let '(tool_call, tool_args, out) := x in invocation_turn tool_call tool_args out.
Definition executed_call (x : executed) : ToolCall := fst (fst x).

(** How [process_query] ends once its second call has ended as [out]. *)
Definition final_answer (result_parts : list string) (out : outcome ChatCompletion)
  : outcome string :=
  match out with
  | Raised e => Raised e
  | Returned response =>
      match Handlers.first_message response with
      | Raised e => Raised e
      | Returned final_message =>
          Returned ("Assistant: "
                    ++ join_lines (Handlers.append_if_present result_parts
                                     (msg_content final_message)))%string
      end
  end.

(** A member of a dict. *)
Fixpoint assoc (key : string) (members : list (string * json)) : option json :=
  match members with
  | [] => None
  | (k, v) :: rest => if (k =? key)%string then Some v else assoc key rest
  end.

Definition dict_get (key : string) (v : json) : option json :=
  match v with
  | JDict members => assoc key members
  | _ => None
  end.

(** [entry["function"][key]] *)
Definition function_field (key : string) (entry : json) : option json :=
  match dict_get "function" entry with
  | Some f => dict_get key f
  | None => None
  end.

(** The error of [__init__] without a credential. *)
Definition missing_credential : exn :=
  runtime_error "Error: OPENAI_API_KEY environment variable not set".

(** An exception that a collaborator of [process_query] raised to it. *)
Definition raised_to_process_query (e : exn) (evs : list event) : Prop :=
  In (EvListTools (Raised e)) evs
  \/ (exists request, In (EvCreate request (Raised e)) evs)
  \/ (exists text, json_loads text = Raised e).

(** The server [_connect_to_server] asks [stdio_client] to start. *)
Definition server_for (path : string) : StdioServerParameters :=
  {| command := sys_executable; args := [path]; env := None |}.

(** The two errors of [_connect_to_server]. *)
Definition not_found (path : string) : exn :=
  runtime_error ("Server script not found: " ++ path).

Definition connect_failed (e : exn) : exn :=
  runtime_error_from ("Failed to connect to server: " ++ str_exn e) e.

(** An exception raised while the server was started or greeted. *)
Definition raised_while_connecting (e : exn) (evs : list event) : Prop :=
  (exists server, In (EvSpawn server (Raised e)) evs)
  \/ In (EvSession (Raised e)) evs
  \/ In (EvInitialize (Raised e)) evs.

End Observations.

(** ** A scripted runtime

    The collaborators answer from a script: the environment and the files are
    fixed, and every effectful call takes the next reply, which has to be of
    its kind.  Sessions and streams are numbers. *)

Inductive reply : Type :=
| Spawned (o : outcome nat)
| Opened (o : outcome nat)
| Greeted (o : outcome unit)
| Listed (o : outcome (list Tool))
| Completed (o : outcome ChatCompletion)
| Called (o : outcome CallToolResult).

Record script : Type := {
  environ : list (string * string);
  files : list string;
  replies : list reply
}.

Definition off_script : exn := Exn (OtherException "AssertionError") "no such reply in the script".

(** The next reply, when [pick] accepts it. *)
Definition next {A} (pick : reply -> option (outcome A)) (w : script) : outcome A * script :=
  match replies w with
  | r :: rest =>
      match pick r with
      | Some o => (o, {| environ := environ w; files := files w; replies := rest |})
      | None => (Raised off_script, w)
      end
  | [] => (Raised off_script, w)
  end.

Fixpoint lookup (key : string) (table : list (string * string)) : option string :=
  match table with
  | [] => None
  | (k, v) :: rest => if (k =? key)%string then Some v else lookup key rest
  end.

Definition double_quote : string := String (ascii_of_nat 34) EmptyString.

(** The text [{"text": "hi"}]. *)
Definition hi_arguments : string :=
  "{" ++ double_quote ++ "text" ++ double_quote ++ ": "
      ++ double_quote ++ "hi" ++ double_quote ++ "}".

(** [json.loads] on the texts the scripts use: two objects and the malformed
    [{oops], with the message Python gives for it; the table takes any other
    text as one that starts with no value. *)
Definition scripted_json_loads (text : string) : outcome json :=
  if (text =? "{}")%string then Returned (JDict [])
  else if (text =? hi_arguments)%string then Returned (JDict [("text", JStr "hi")])
  else if (text =? "{oops")%string then
    Raised (Exn JSONDecodeError
              "Expecting property name enclosed in double quotes: line 1 column 2 (char 1)")
  else Raised (Exn JSONDecodeError "Expecting value: line 1 column 1 (char 0)").

(** [str] of a decoded value, for strings that need no escape. *)
Fixpoint py_repr (v : json) : string :=
  match v with
  | JNull => "None"
  | JBool true => "True"
  | JBool false => "False"
  | JInt z => NilZero.string_of_int (Z.to_int z)
  | JStr s => "'" ++ s ++ "'"
  | JList items => "[" ++ String.concat ", " (map py_repr items) ++ "]"
  | JDict members =>
      "{" ++ String.concat ", "
               (map (fun kv => ("'" ++ fst kv ++ "': " ++ py_repr (snd kv))%string) members)
          ++ "}"
  end.

Definition scripted : Runtime := {|
  world := script;
  ClientSession := nat;
  Streams := nat;
  json_loads := scripted_json_loads;
  format_value := py_repr;
  os_getenv := fun key w => lookup key (environ w);
  sys_executable := "/usr/bin/python3";
  sys_platform := "linux";
  Path_resolve := fun p _ => p;
  Path_exists := fun p w => existsb (String.eqb p) (files w);
  chat_completions_create :=
    fun _ _ => next (fun r => match r with Completed o => Some o | _ => None end);
  stdio_client_enter :=
    fun _ => next (fun r => match r with Spawned o => Some o | _ => None end);
  ClientSession_enter :=
    fun _ => next (fun r => match r with Opened o => Some o | _ => None end);
  ClientSession_initialize :=
    fun _ => next (fun r => match r with Greeted o => Some o | _ => None end);
  ClientSession_list_tools :=
    fun _ => next (fun r => match r with Listed o => Some o | _ => None end);
  ClientSession_list_prompts := fun _ w => (Returned [], w);
  ClientSession_list_resources := fun _ w => (Returned [], w);
  ClientSession_call_tool :=
    fun _ _ _ => next (fun r => match r with Called o => Some o | _ => None end);
  exit_stack_aclose := fun w => (Returned tt, w);
  chat_run_chat := fun _ _ w => (Returned tt, w)
|}.

(** *** Scripts *)

Definition echo_tool : Tool :=
  {| name := "echo"; description := Some "echoes input"; inputSchema := None |}.

Definition a_handler : @Handlers.OpenAIQueryHandler scripted :=
  @Handlers.Build_OpenAIQueryHandler scripted 7%nat {| api_key := "sk-test" |}.

(** A message with text and no invocation, and one with invocations and no
    text; a completion with one choice. *)
Definition text_message (text : string) : ChatMessage :=
  {| msg_content := Some text; msg_tool_calls := None |}.

Definition request_message (tool_calls : list ToolCall) : ChatMessage :=
  {| msg_content := None; msg_tool_calls := Some tool_calls |}.

Definition completion (m : ChatMessage) : ChatCompletion := {| choices := [m] |}.

Definition says (text : string) : outcome ChatCompletion :=
  Returned (completion (text_message text)).

Definition requests (tool_calls : list ToolCall) : outcome ChatCompletion :=
  Returned (completion (request_message tool_calls)).

Definition echo_hi : ToolCall :=
  {| id := "call_1"; function := {| fn_name := "echo"; fn_arguments := Some hi_arguments |} |}.

Definition echo_oops : ToolCall :=
  {| id := "call_2"; function := {| fn_name := "echo"; fn_arguments := Some "{oops" |} |}.

Definition echo_bare : ToolCall :=
  {| id := "call_3"; function := {| fn_name := "echo"; fn_arguments := None |} |}.

Definition server_down : exn := Exn (OtherException "McpError") "Connection closed".
Definition engine_down : exn := Exn (OtherException "APIConnectionError") "Connection error.".
Definition no_interpreter : exn :=
  Exn (OtherException "FileNotFoundError") "[Errno 2] No such file or directory".

Definition with_replies (rs : list reply) : @state scripted :=
  fresh (R := scripted)
    {| environ := [("OPENAI_API_KEY", "sk-test")]; files := ["server.py"]; replies := rs |}.

(** The engine answers in text and asks for no tool. *)
Definition plain_answer : @state scripted :=
  with_replies [Listed (Returned [echo_tool]); Completed (says "You have an echo tool.")].

(** The engine asks for [echo({"text": "hi"})], the tool answers, the engine
    concludes. *)
Definition echo_round : @state scripted :=
  with_replies
    [ Listed (Returned [echo_tool]); Completed (requests [echo_hi]);
      Called (Returned {| content := [TextContent "hi"] |}); Completed (says "Done.") ].

(** The engine asks for [echo] with arguments that are no JSON. *)
Definition malformed_round : @state scripted :=
  with_replies
    [ Listed (Returned [echo_tool]); Completed (requests [echo_oops]);
      Called (Returned {| content := [TextContent "hi"] |}); Completed (says "Done.") ].

(** The first tool call fails and the second invocation has arguments that
    are no JSON. *)
Definition failure_then_malformed : @state scripted :=
  with_replies
    [ Listed (Returned [echo_tool]); Completed (requests [echo_hi; echo_oops]);
      Called (Raised server_down);
      Called (Returned {| content := [TextContent "hi"] |}); Completed (says "Done.") ].

(** The first tool call fails, the second succeeds, the engine concludes. *)
Definition failure_then_success : @state scripted :=
  with_replies
    [ Listed (Returned [echo_tool]); Completed (requests [echo_hi; echo_bare]);
      Called (Raised server_down);
      Called (Returned {| content := [TextContent "ok"] |}); Completed (says "Done.") ].

(** The second call to the engine fails. *)
Definition second_call_fails : @state scripted :=
  with_replies
    [ Listed (Returned [echo_tool]); Completed (requests [echo_hi]);
      Called (Returned {| content := [TextContent "hi"] |}); Completed (Raised engine_down) ].

(** No credential in the environment. *)
Definition no_credential : @state scripted :=
  fresh (R := scripted) {| environ := []; files := ["server.py"]; replies := [] |}.

(** The server script is there and the interpreter cannot be started. *)
Definition spawn_fails : @state scripted :=
  with_replies [Spawned (Raised no_interpreter)].

(** The server starts and rejects the handshake. *)
Definition handshake_fails : @state scripted :=
  with_replies [Spawned (Returned 3%nat); Opened (Returned 4%nat); Greeted (Raised server_down)].

Definition a_client : Mcp_client.MCPClient := {| Mcp_client.server_path := "server.py" |}.
Definition lost_client : Mcp_client.MCPClient := {| Mcp_client.server_path := "missing.py" |}.

Definition members_of (path : string) : Namespace :=
  {| ns_server_path := path; ns_members := true; ns_chat := false |}.

(** A tool is about to be called and will answer. *)
Definition tool_ready : @state scripted :=
  with_replies [Called (Returned {| content := [TextContent "ok"] |})].

(** The two runs of [process_query] that end before the second call. *)
Definition malformed_run : outcome string * @state scripted :=
  Handlers.process_query (R := scripted) a_handler "echo hi" malformed_round.

Definition failure_then_malformed_run : outcome string * @state scripted :=
  Handlers.process_query (R := scripted) a_handler "echo hi" failure_then_malformed.

Definition plain_run : outcome string * @state scripted :=
  Handlers.process_query (R := scripted) a_handler "What tools are available?" plain_answer.

(** What Python's decoder says of [{oops]. *)
Definition oops_error : exn :=
  Exn JSONDecodeError
    "Expecting property name enclosed in double quotes: line 1 column 2 (char 1)".

(** ** [mcp_client/chat.py] *)

Module Chat.
Section WithRuntime.
Context {R : Runtime}.

(** What the loop calls and does not define: the builtin [input], [str.strip]
    and [str.lower], and the handler's [process_query]. *)
Variable input : string -> world -> outcome string * world.
Variable strip : string -> string.
Variable lower : string -> string.
Variable process_query : string -> M string.

(** [input(prompt)]; the prompt it shows is not kept in the trace. *)
Definition read (prompt : string) : M string :=
  fun s =>
    let (o, w) := input prompt (st_world s) in
    (o, {| st_world := w;
           st_trace := st_trace s;
           class_client_session := class_client_session s |}).

(** How a pass through the body of [while True] ends. *)
Inductive control : Type :=
| Continue
| Break.

(** The body of the loop: the [try] and its [except Exception]. *)
Definition iteration : M control :=
  try_except
    (line <- read (newline ++ "You: ") ;;
     let query := strip line in
     match query with
     | EmptyString => ret Continue
     | String _ _ =>
         if (lower query =? "quit")%string then ret Break
         else
           answer <- process_query query ;;
           print (newline ++ answer) ;;
           ret Continue
     end)
    (fun e => print (newline ++ "Error: " ++ str_exn e) ;; ret Continue).

(** [while True], for at most [fuel] passes: [Some tt] once the loop has been
    left, [None] while it is still going. *)
Fixpoint loop (fuel : nat) : M (option unit) :=
  match fuel with
  | O => ret None
  | S fuel' =>
      c <- iteration ;;
      match c with
      | Break => ret (Some tt)
      | Continue => loop fuel'
      end
  end.

(** [run_chat], with at most [fuel] passes through its loop. *)
Definition run_chat (fuel : nat) : M (option unit) :=
  print (newline ++ "MCP Client's Chat Started!") ;;
  print "Type your queries or 'quit' to exit." ;;
  r <- loop fuel ;;
  match r with
  | Some _ => print (newline ++ "Goodbye!") ;; ret (Some tt)
  | None => ret None
  end.

End WithRuntime.
End Chat.

(** ** [mcp_client/__init__.py] *)

(** [create_client] *)
Definition create_client (server_path : string) : Mcp_client.MCPClient :=
  {| Mcp_client.server_path := server_path |}.

(** ** More to read from a run *)

Section MoreObservations.
Context {R : Runtime}.

(** The catalogs that were listed, by kind. *)
Inductive catalog_kind : Type :=
| Tools
| Prompts
| Resources.

Definition listings (tr : list event) : list catalog_kind :=
  flat_map (fun ev =>
              match ev with
              | EvListTools _ => [Tools]
              | EvListPrompts _ => [Prompts]
              | EvListResources _ => [Resources]
              | _ => []
              end) tr.

(** The calls to [exit_stack.aclose], each with its outcome. *)
Definition closings (tr : list event) : list (outcome unit) :=
  flat_map (fun ev => match ev with EvAclose o => [o] | _ => [] end) tr.

(** The times the chat loop was entered, each with its outcome. *)
Definition chats (tr : list event) : list (outcome unit) :=
  flat_map (fun ev => match ev with EvChat o => [o] | _ => [] end) tr.

(** The sessions that were opened and the handshakes that were made. *)
Definition sessions_opened (tr : list event) : list (outcome ClientSession) :=
  flat_map (fun ev => match ev with EvSession o => [o] | _ => [] end) tr.

Definition handshakes (tr : list event) : list (outcome unit) :=
  flat_map (fun ev => match ev with EvInitialize o => [o] | _ => [] end) tr.

(** The ["tool_call_id"] of a tool turn. *)
Definition turn_id (m : message) : option string :=
  match m with
  | tool_message tool_call_id _ => Some tool_call_id
  | _ => None
  end.

(** The ["content"] of a turn. *)
Definition turn_content (m : message) : string :=
  match m with
  | user_message content => content
  | assistant_message content _ => content
  | tool_message _ content => content
  end.

(** [s] begins with [prefix]. *)
Definition starts_with (prefix s : string) : Prop := exists rest, s = (prefix ++ rest)%string.

(** The lines [_list_section] prints for a section that was listed. *)
Definition section_lines (section : string) (items : list (string * option string))
  : list string :=
  match items with
  | [] => [newline ++ Mcp_client.upper section ++ ": None available"]%string
  | _ :: _ =>
      [newline ++ Mcp_client.upper section ++ " (" ++ Mcp_client.str_len items ++ "):";
       Mcp_client.repeat_string "-" 30]%string
      ++ map (fun item =>
                (" > " ++ fst item ++ " - " ++ or_else (snd item) "No description")%string)
           items
  end.

(** The line [_list_section] prints for a section that could not be listed. *)
Definition section_error_line (section : string) (e : exn) : string :=
  newline ++ Mcp_client.upper section ++ ": Error - " ++ str_exn e.

(** The lines of a section, from the outcome of its listing. *)
Definition section_report (section : string) (out : outcome (list (string * option string)))
  : list string :=
  match out with
  | Returned items => section_lines section items
  | Raised e => [section_error_line section e]
  end.

(** The items of a listing that returned, by name and description. *)
Definition items_of {A} (item : A -> string * option string) (out : outcome (list A))
  : outcome (list (string * option string)) :=
  match out with
  | Returned listed => Returned (map item listed)
  | Raised e => Raised e
  end.

(** A state after [lines] have been printed. *)
Definition printing (lines : list string) (s : state) : state :=
  {| st_world := st_world s;
     st_trace := st_trace s ++ map EvPrint lines;
     class_client_session := class_client_session s |}.

(** The first two lines and the last line of [list_all_members]. *)
Definition members_header : list string :=
  ["MCP Server Members"; Mcp_client.repeat_string "=" 50].

Definition members_footer : string := newline ++ Mcp_client.repeat_string "=" 50.

(** A state with the class slot holding [session]. *)
Definition connected (s : state) (session : ClientSession) : state :=
  {| st_world := st_world s;
     st_trace := st_trace s;
     class_client_session := Some session |}.

(** A state after [input] has left the world [w]. *)
Definition after_input (s : state) (w : world) : state :=
  {| st_world := w;
     st_trace := st_trace s;
     class_client_session := class_client_session s |}.

End MoreObservations.

(** ** A runtime with a standard input

    The world of a runtime, with the lines still to be read. *)

Definition on_world {R : Runtime} {A} (f : world -> outcome A * world)
  : world * list string -> outcome A * (world * list string) :=
  fun w => let (o, w') := f (fst w) in (o, (w', snd w)).

Definition with_stdin (R : Runtime) : Runtime := {|
  world := (@world R * list string)%type;
  ClientSession := @ClientSession R;
  Streams := @Streams R;
  json_loads := @json_loads R;
  format_value := @format_value R;
  os_getenv := fun key w => @os_getenv R key (fst w);
  sys_executable := @sys_executable R;
  sys_platform := @sys_platform R;
  Path_resolve := fun p w => @Path_resolve R p (fst w);
  Path_exists := fun p w => @Path_exists R p (fst w);
  chat_completions_create := fun client request => on_world (chat_completions_create client request);
  stdio_client_enter := fun server => on_world (stdio_client_enter server);
  ClientSession_enter := fun streams => on_world (ClientSession_enter streams);
  ClientSession_initialize := fun session => on_world (ClientSession_initialize session);
  ClientSession_list_tools := fun session => on_world (ClientSession_list_tools session);
  ClientSession_list_prompts := fun session => on_world (ClientSession_list_prompts session);
  ClientSession_list_resources := fun session => on_world (ClientSession_list_resources session);
  ClientSession_call_tool :=
    fun session tool_name tool_args =>
      on_world (ClientSession_call_tool session tool_name tool_args);
  exit_stack_aclose := on_world exit_stack_aclose;
  chat_run_chat := fun session client => on_world (chat_run_chat session client)
|}.

Definition end_of_file : exn := Exn (OtherException "EOFError") "EOF when reading a line".

(** [input] on the lines to be read: the next line, or [EOFError]. *)
Definition stdin_input {R : Runtime} (prompt : string) (w : @world R * list string)
  : outcome string * (@world R * list string) :=
  match snd w with
  | line :: rest => (Returned line, (fst w, rest))
  | [] => (Raised end_of_file, w)
  end.

(** [str.isspace], [str.strip] and [str.lower] on ASCII text. *)
Definition is_space (c : ascii) : bool :=
  let n := nat_of_ascii c in
  ((9 <=? n)%nat && (n <=? 13)%nat) || ((28 <=? n)%nat && (n <=? 32)%nat).

Fixpoint lstrip (s : string) : string :=
  match s with
  | EmptyString => EmptyString
  | String c rest => if is_space c then lstrip rest else s
  end.

Fixpoint rstrip (s : string) : string :=
  match s with
  | EmptyString => EmptyString
  | String c rest =>
      match rstrip rest with
      | EmptyString => if is_space c then EmptyString else String c EmptyString
      | String c' rest' => String c (String c' rest')
      end
  end.

Definition ascii_strip (s : string) : string := rstrip (lstrip s).

Definition lower_ascii (c : ascii) : ascii :=
  let n := nat_of_ascii c in
  if (65 <=? n)%nat && (n <=? 90)%nat then ascii_of_nat (n + 32) else c.

Fixpoint ascii_lower (s : string) : string :=
  match s with
  | EmptyString => EmptyString
  | String c rest => String (lower_ascii c) (ascii_lower rest)
  end.

(** *** Scripts with a standard input *)

Definition console : Runtime := with_stdin scripted.

Definition console_state (rs : list reply) (lines : list string) : @state console :=
  fresh (R := console)
    ({| environ := [("OPENAI_API_KEY", "sk-test")]; files := ["server.py"]; replies := rs |},
     lines).

Definition console_handler : @Handlers.OpenAIQueryHandler console :=
  @Handlers.Build_OpenAIQueryHandler console 7%nat {| api_key := "sk-test" |}.

(** The chat loop of the console, on [console_handler]. *)
Definition console_chat (fuel : nat) : @M console (option unit) :=
  Chat.run_chat (R := console) stdin_input ascii_strip ascii_lower
    (Handlers.process_query (R := console) console_handler) fuel.

Definition console_loop (fuel : nat) : @M console (option unit) :=
  Chat.loop (R := console) stdin_input ascii_strip ascii_lower
    (Handlers.process_query (R := console) console_handler) fuel.

Definition console_iteration : @M console Chat.control :=
  Chat.iteration (R := console) stdin_input ascii_strip ascii_lower
    (Handlers.process_query (R := console) console_handler).

(** A blank line, a question the engine answers in text, and [quit]. *)
Definition short_chat : @state console :=
  console_state
    [Listed (Returned [echo_tool]); Completed (says "You have an echo tool.")]
    ["   "; " What tools are available? "; "Quit"].

(** A question while the engine is down, then [quit]. *)
Definition troubled_chat : @state console :=
  console_state [Listed (Returned [echo_tool]); Completed (Raised engine_down)]
    ["hello"; "quit"].

(** Nothing to read. *)
Definition closed_stdin : @state console := console_state [] [].

(** The server starts and greets; its catalog is listed. *)
Definition listing_session : @state scripted :=
  with_replies
    [ Spawned (Returned 3%nat); Opened (Returned 4%nat); Greeted (Returned tt);
      Listed (Returned [echo_tool]) ].

(** A session is already there; the catalog cannot be listed. *)
Definition listing_fails : @state scripted :=
  connected (R := scripted) (with_replies [Listed (Raised server_down)]) 4%nat.

Definition listing_works : @state scripted :=
  connected (R := scripted) (with_replies [Listed (Returned [echo_tool])]) 4%nat.

(** The first response has no choice; the second response has none. *)
Definition no_choice : outcome ChatCompletion := Returned {| choices := [] |}.

Definition first_without_choice : @state scripted :=
  with_replies [Listed (Returned [echo_tool]); Completed no_choice].

Definition second_without_choice : @state scripted :=
  with_replies
    [ Listed (Returned [echo_tool]); Completed (requests [echo_hi]);
      Called (Returned {| content := [TextContent "hi"] |}); Completed no_choice ].

(** The catalog cannot be listed; the engine is down at the first call. *)
Definition catalog_fails : @state scripted := with_replies [Listed (Raised server_down)].

Definition first_call_fails : @state scripted :=
  with_replies [Listed (Returned [echo_tool]); Completed (Raised engine_down)].

(** A tool answers with two text parts; with an image first; with nothing. *)
Definition two_parts : @state scripted :=
  with_replies [Called (Returned {| content := [TextContent "one"; TextContent "two"] |})].

Definition image_first : @state scripted :=
  with_replies
    [Called (Returned {| content := [OtherContent "ImageContent"; TextContent "two"] |})].

Definition no_parts : @state scripted :=
  with_replies [Called (Returned {| content := [] |})].

(** A session and no credential. *)
Definition connected_without_credential : @state scripted :=
  connected (R := scripted) no_credential 4%nat.

Definition chat_of (path : string) : Namespace :=
  {| ns_server_path := path; ns_members := false; ns_chat := true |}.

(** * Properties *)

Section Properties.
Context {R : Runtime}.

(** ** Lists, strings, exceptions *)

Lemma join_first_text (c : option string) :
  join_lines (Handlers.append_if_present [] c) = or_else c "".
Proof.
  unfold Handlers.append_if_present.
  destruct c as [[|a t]|]; reflexivity.
Qed.

Lemma engine_calls_app (a b : list event) :
  engine_calls (a ++ b) = engine_calls a ++ engine_calls b.
Proof. unfold engine_calls. apply flat_map_app. Qed.

Lemma tool_calls_made_app (a b : list event) :
  tool_calls_made (a ++ b) = tool_calls_made a ++ tool_calls_made b.
Proof. unfold tool_calls_made. apply flat_map_app. Qed.

Lemma spawn_attempts_app (a b : list event) :
  spawn_attempts (a ++ b) = spawn_attempts a ++ spawn_attempts b.
Proof. unfold spawn_attempts. apply flat_map_app. Qed.

(** An exception is not its own cause, at any depth. *)
Lemma exn_from_neq (e : exn) : forall c t, ExnFrom c t e <> e.
Proof.
  induction e as [c0 t0 | c0 t0 e IH]; intros c t H.
  - discriminate H.
  - injection H as _ _ H. exact (IH _ _ H).
Qed.

(** ** One invocation *)

(** [_execute_tool] decodes, then calls the tool once and settles whatever
    the call did. *)
Lemma execute_tool_run (self : Handlers.OpenAIQueryHandler) (tool_call : ToolCall) (s : state) :
  Handlers._execute_tool self tool_call s =
  match decode_arguments tool_call with
  | Raised e => (Raised e, s)
  | Returned tool_args =>
      let (out, w) :=
        ClientSession_call_tool (Handlers.client_session self)
          (fn_name (function tool_call)) tool_args (st_world s) in
      (Returned {| Handlers.log := invocation_log tool_call tool_args out;
                   Handlers.tool_turn := invocation_turn tool_call tool_args out |},
       record_event (invocation_event tool_call tool_args out) s w)
  end.
Proof.
  unfold Handlers._execute_tool, decode_arguments, bind, lift, try_except, call, ret.
  destruct (json_loads (or_else (fn_arguments (function tool_call)) "{}")) as [tool_args|e];
    [|reflexivity].
  unfold invocation_log, invocation_turn, invocation_event, settled.
  destruct (ClientSession_call_tool _ _ _ _) as [[result|e] w]; [|reflexivity].
  destruct (content result) as [|part parts]; [reflexivity|].
  destruct (Handlers.text_of part) as [text|e]; reflexivity.
Qed.

(** ** The loop over the requested invocations *)

(** The loop over [pre ++ post] is the loop over [pre], then over [post]. *)
Lemma execute_tools_app (self : Handlers.OpenAIQueryHandler) (pre post : list ToolCall) :
  forall parts msgs s,
    Handlers.execute_tools self (pre ++ post) parts msgs s =
    match Handlers.execute_tools self pre parts msgs s with
    | (Returned (parts', msgs'), s') => Handlers.execute_tools self post parts' msgs' s'
    | (Raised e, s') => (Raised e, s')
    end.
Proof.
  induction pre as [|tool_call pre IH]; intros parts msgs s.
  - reflexivity.
  - simpl. unfold bind.
    destruct (Handlers._execute_tool self tool_call s) as [[r|e] s1]; [|reflexivity].
    apply IH.
Qed.

(** When every argument text decodes, the loop runs to its end: one call per
    invocation, in the order of the list, and one log segment and one tool
    turn for each. *)
Lemma execute_tools_run (self : Handlers.OpenAIQueryHandler) (tool_calls : list ToolCall) :
  Forall decodable tool_calls ->
  forall parts msgs s,
  exists (xs : list executed) (s' : state),
    Handlers.execute_tools self tool_calls parts msgs s
    = (Returned (parts ++ map executed_log xs, msgs ++ map executed_turn xs), s')
    /\ map executed_call xs = tool_calls
    /\ Forall (fun x => decode_arguments (fst (fst x)) = Returned (snd (fst x))) xs
    /\ st_trace s' = st_trace s ++ map executed_event xs
    /\ class_client_session s' = class_client_session s.
Proof.
  induction 1 as [|tool_call rest [tool_args Hd] _ IH]; intros parts msgs s.
  - exists [], s. simpl. rewrite !app_nil_r. repeat split; constructor.
  - simpl. unfold bind. rewrite execute_tool_run, Hd.
    destruct (ClientSession_call_tool _ _ _ _) as [out w].
    cbn [Handlers.log Handlers.tool_turn].
    destruct (IH (parts ++ [invocation_log tool_call tool_args out])
                 (msgs ++ [invocation_turn tool_call tool_args out])
                 (record_event (invocation_event tool_call tool_args out) s w))
      as (xs & s' & Hrun & Hcalls & Hdec & Htr & Hcs).
    exists ((tool_call, tool_args, out) :: xs), s'.
    simpl in *. rewrite Hrun, <- !app_assoc. simpl.
    repeat split.
    + now rewrite Hcalls.
    + constructor; assumption.
    + now rewrite Htr, <- app_assoc.
    + exact Hcs.
Qed.

(** However the loop ends, it writes nothing but tool calls to the trace,
    and what it raises is what the decoder raised. *)
Lemma execute_tools_any (self : Handlers.OpenAIQueryHandler) (tool_calls : list ToolCall) :
  forall parts msgs s,
  exists (xs : list executed),
    st_trace (snd (Handlers.execute_tools self tool_calls parts msgs s))
    = st_trace s ++ map executed_event xs
    /\ forall e, fst (Handlers.execute_tools self tool_calls parts msgs s) = Raised e ->
                 exists text, json_loads text = Raised e.
Proof.
  induction tool_calls as [|tool_call rest IH]; intros parts msgs s.
  - exists []. simpl. rewrite app_nil_r. split; [reflexivity|discriminate].
  - simpl. unfold bind. rewrite execute_tool_run.
    destruct (decode_arguments tool_call) as [tool_args|e0] eqn:Hd.
    + destruct (ClientSession_call_tool _ _ _ _) as [out w].
      cbn [Handlers.log Handlers.tool_turn].
      destruct (IH (parts ++ [invocation_log tool_call tool_args out])
                   (msgs ++ [invocation_turn tool_call tool_args out])
                   (record_event (invocation_event tool_call tool_args out) s w))
        as (xs & Htr & Hraise).
      exists ((tool_call, tool_args, out) :: xs). split.
      * rewrite Htr. simpl. now rewrite <- app_assoc.
      * exact Hraise.
    + exists []. simpl. rewrite app_nil_r. split; [reflexivity|].
      intros e He. injection He as <-. unfold decode_arguments in Hd. eauto.
Qed.

Lemma engine_calls_executed (xs : list executed) : engine_calls (map executed_event xs) = [].
Proof.
  induction xs as [|[[tool_call tool_args] out] xs IH]; [reflexivity|exact IH].
Qed.

Lemma tool_calls_made_executed (xs : list executed) :
  tool_calls_made (map executed_event xs)
  = map (fun x => (fn_name (function (executed_call x)), snd (fst x), snd x)) xs.
Proof.
  induction xs as [|[[tool_call tool_args] out] xs IH]; [reflexivity|].
  simpl. f_equal. exact IH.
Qed.

(** A log segment names the tool and its arguments, or is an error in
    brackets. *)
Lemma executed_log_shape (tool_call : ToolCall) (tool_args : json)
    (out : outcome CallToolResult) :
  executed_log (tool_call, tool_args, out)
  = used_log (fn_name (function tool_call)) tool_args
  \/ exists e, executed_log (tool_call, tool_args, out) = error_log e.
Proof.
  unfold executed_log, invocation_log, settled.
  destruct out as [result|e]; [|right; now exists e].
  destruct (content result) as [|part parts]; [now left|].
  destruct (Handlers.text_of part) as [text|e]; [now left|right; now exists e].
Qed.

(** ** [process_query] *)

(** The first half of [process_query], up to the first message. *)
Lemma process_query_first_call (self : Handlers.OpenAIQueryHandler) (query : string)
    (s : state) catalog w1 response w2 m rest :
  ClientSession_list_tools (Handlers.client_session self) (st_world s) = (Returned catalog, w1) ->
  chat_completions_create (Handlers.openai self) (first_request query catalog) w1
  = (Returned response, w2) ->
  choices response = m :: rest ->
  let s2 :=
    record_event (EvCreate (first_request query catalog) (Returned response))
      (record_event (EvListTools (Returned catalog)) s w1) w2 in
  Handlers.process_query self query s =
  match msg_tool_calls m with
  | Some (tool_call :: more) =>
      match Handlers.execute_tools self (tool_call :: more)
              (Handlers.append_if_present [] (msg_content m))
              (conversation query m (tool_call :: more) []) s2 with
      | (Returned (result_parts, messages), s3) =>
          let request :=
            {| model := Handlers.MODEL; max_tokens := Handlers.MAX_TOKENS;
               messages := messages; tools := None |} in
          let (out, w4) :=
            chat_completions_create (Handlers.openai self) request (st_world s3) in
          (final_answer result_parts out, record_event (EvCreate request out) s3 w4)
      | (Raised e, s3) => (Raised e, s3)
      end
  | _ =>
      (Returned ("Assistant: " ++ join_lines (Handlers.append_if_present [] (msg_content m)))%string,
       s2)
  end.
Proof.
  intros Hlist Hcreate Hchoices s2.
  unfold Handlers.process_query, Handlers._get_tools.
  unfold bind at 1. unfold bind at 1. unfold call at 1. rewrite Hlist.
  cbn [ret]. unfold bind at 1. unfold call at 1. cbn [st_world record_event].
  fold (first_request query catalog). rewrite Hcreate.
  unfold bind at 1. unfold lift at 1, Handlers.first_message. rewrite Hchoices.
  fold s2.
  destruct (msg_tool_calls m) as [[|tool_call more]|]; [reflexivity| |reflexivity].
  unfold bind at 1. unfold conversation. cbn [app].
  destruct (Handlers.execute_tools self (tool_call :: more) _ _ s2)
    as [[[result_parts messages]|e] s3]; [|reflexivity].
  unfold bind at 1. unfold call at 1.
  destruct (chat_completions_create _ _ (st_world s3)) as [[final|e] w4]; [|reflexivity].
  unfold bind, lift, ret, final_answer, Handlers.first_message.
  destruct (choices final); reflexivity.
Qed.

(** The whole tool round, when every argument text decodes: the catalog is
    listed, the engine is called with the tools, every requested invocation
    is executed in the order of the request, and the engine is called again
    with the conversation and no tools; the second call decides how
    [process_query] ends. *)
Lemma process_query_tool_round_run (self : Handlers.OpenAIQueryHandler) (query : string)
    (s : state) catalog w1 response w2 m rest tool_calls :
  ClientSession_list_tools (Handlers.client_session self) (st_world s) = (Returned catalog, w1) ->
  chat_completions_create (Handlers.openai self) (first_request query catalog) w1
  = (Returned response, w2) ->
  choices response = m :: rest ->
  msg_tool_calls m = Some tool_calls ->
  tool_calls <> [] ->
  Forall decodable tool_calls ->
  exists (xs : list executed) (out2 : outcome ChatCompletion) (s' : state),
    Handlers.process_query self query s
    = (final_answer (Handlers.append_if_present [] (msg_content m) ++ map executed_log xs) out2,
       s')
    /\ map executed_call xs = tool_calls
    /\ Forall (fun x => decode_arguments (fst (fst x)) = Returned (snd (fst x))) xs
    /\ st_trace s'
       = st_trace s
         ++ [EvListTools (Returned catalog);
             EvCreate (first_request query catalog) (Returned response)]
         ++ map executed_event xs
         ++ [EvCreate (second_request query m tool_calls (map executed_turn xs)) out2].
Proof.
  intros Hlist Hcreate Hchoices Hcalls Hne Hdec.
  rewrite (process_query_first_call self query s _ _ _ _ _ _ Hlist Hcreate Hchoices).
  rewrite Hcalls. destruct tool_calls as [|tool_call more]; [contradiction|].
  destruct (execute_tools_run self (tool_call :: more) Hdec
              (Handlers.append_if_present [] (msg_content m))
              (conversation query m (tool_call :: more) [])
              (record_event (EvCreate (first_request query catalog) (Returned response))
                 (record_event (EvListTools (Returned catalog)) s w1) w2))
    as (xs & s3 & Hrun & Hxs & Hdecoded & Htr & _).
  cbv zeta. rewrite Hrun.
  destruct (chat_completions_create _ _ (st_world s3)) as [out2 w4].
  exists xs, out2, (record_event
                      (EvCreate {| model := Handlers.MODEL; max_tokens := Handlers.MAX_TOKENS;
                                   messages := conversation query m (tool_call :: more) []
                                               ++ map executed_turn xs;
                                   tools := None |} out2) s3 w4).
  repeat split; try assumption.
  cbn [st_trace record_event] in *. rewrite Htr.
  unfold second_request, conversation. cbn [app].
  rewrite <- !app_assoc. reflexivity.
Qed.

(** C1 (as amended): when the first response requests N >= 1 invocations and
    the arguments of each of them decode, [process_query] calls the engine
    exactly twice and the tools exactly N times, one invocation after the
    other in the order the engine listed them; the answer carries one log
    segment per invocation in that order, and the second request carries the
    conversation and no tool list. *)
Theorem process_query_tool_round (self : Handlers.OpenAIQueryHandler) (query : string)
    (s : state) catalog w1 response w2 m rest tool_calls :
  ClientSession_list_tools (Handlers.client_session self) (st_world s) = (Returned catalog, w1) ->
  chat_completions_create (Handlers.openai self) (first_request query catalog) w1
  = (Returned response, w2) ->
  choices response = m :: rest ->
  msg_tool_calls m = Some tool_calls ->
  tool_calls <> [] ->
  Forall decodable tool_calls ->
  exists (xs : list executed) (out2 : outcome ChatCompletion) (s' : state) (evs : list event),
    Handlers.process_query self query s
    = (final_answer (Handlers.append_if_present [] (msg_content m) ++ map executed_log xs) out2,
       s')
    /\ st_trace s' = st_trace s ++ evs
    /\ map executed_call xs = tool_calls
    /\ length (map executed_log xs) = length tool_calls
    /\ Forall (fun x => decode_arguments (fst (fst x)) = Returned (snd (fst x))) xs
    /\ evs = [EvListTools (Returned catalog);
              EvCreate (first_request query catalog) (Returned response)]
             ++ map executed_event xs
             ++ [EvCreate (second_request query m tool_calls (map executed_turn xs)) out2]
    /\ length (engine_calls evs) = 2%nat
    /\ map (fun c => tools (fst c)) (engine_calls evs)
       = [Some (map Handlers.format_tool catalog); None]
    /\ length (tool_calls_made evs) = length tool_calls
    /\ map (fun c => fst (fst c)) (tool_calls_made evs)
       = map (fun tool_call => fn_name (function tool_call)) tool_calls
    /\ map (fun c => Returned (snd (fst c))) (tool_calls_made evs)
       = map decode_arguments tool_calls
    /\ Forall (fun x =>
                 executed_log x
                 = used_log (fn_name (function (executed_call x))) (snd (fst x))
                 \/ exists e, executed_log x = error_log e) xs
    /\ (forall response2 m2 rest2,
          out2 = Returned response2 ->
          choices response2 = m2 :: rest2 ->
          fst (Handlers.process_query self query s)
          = Returned ("Assistant: "
                      ++ join_lines
                           (Handlers.append_if_present
                              (Handlers.append_if_present [] (msg_content m)
                               ++ map executed_log xs)
                              (msg_content m2)))%string).
Proof.
  intros Hlist Hcreate Hchoices Hcalls Hne Hdec.
  destruct (process_query_tool_round_run self query s _ _ _ _ _ _ _
              Hlist Hcreate Hchoices Hcalls Hne Hdec)
    as (xs & out2 & s' & Hrun & Hxs & Hdecoded & Htr).
  assert (Hlogs :
    Forall (fun x =>
              executed_log x
              = used_log (fn_name (function (executed_call x))) (snd (fst x))
              \/ exists e, executed_log x = error_log e) xs).
  { apply Forall_forall. intros [[tool_call tool_args] out] _. apply executed_log_shape. }
  assert (Hanswer :
    forall response2 m2 rest2,
      out2 = Returned response2 ->
      choices response2 = m2 :: rest2 ->
      fst (Handlers.process_query self query s)
      = Returned ("Assistant: "
                  ++ join_lines
                       (Handlers.append_if_present
                          (Handlers.append_if_present [] (msg_content m)
                           ++ map executed_log xs)
                          (msg_content m2)))%string).
  { intros response2 m2 rest2 -> Hchoices2. rewrite Hrun.
    cbn [fst final_answer]. unfold Handlers.first_message. rewrite Hchoices2. reflexivity. }
  exists xs, out2, s'. eexists. split; [exact Hrun|]. split; [exact Htr|].
  split; [exact Hxs|]. split; [now rewrite <- Hxs, !length_map|].
  split; [exact Hdecoded|]. split; [reflexivity|].
  assert (Hengine :
    engine_calls
      ([EvListTools (Returned catalog);
        EvCreate (first_request query catalog) (Returned response)]
       ++ map executed_event xs
       ++ [EvCreate (second_request query m tool_calls (map executed_turn xs)) out2])
    = [(first_request query catalog, Returned response);
       (second_request query m tool_calls (map executed_turn xs), out2)]).
  { rewrite !engine_calls_app, engine_calls_executed. reflexivity. }
  assert (Htools :
    tool_calls_made
      ([EvListTools (Returned catalog);
        EvCreate (first_request query catalog) (Returned response)]
       ++ map executed_event xs
       ++ [EvCreate (second_request query m tool_calls (map executed_turn xs)) out2])
    = map (fun x => (fn_name (function (executed_call x)), snd (fst x), snd x)) xs).
  { rewrite !tool_calls_made_app, tool_calls_made_executed. cbn [tool_calls_made flat_map app].
    now rewrite app_nil_r. }
  rewrite Hengine, Htools. rewrite !length_map, !map_map. cbn [map fst snd length].
  split; [reflexivity|]. split; [reflexivity|].
  split; [now rewrite <- Hxs, length_map|].
  split; [rewrite <- Hxs, map_map; reflexivity|].
  split; [|split; [exact Hlogs|exact Hanswer]].
  rewrite <- Hxs, map_map. apply map_ext_in. intros x Hx.
  rewrite Forall_forall in Hdecoded. symmetry. exact (Hdecoded x Hx).
Qed.

(** C2 (as amended): when the first response requests no invocation,
    [process_query] calls the engine exactly once and no tool, and returns
    ["Assistant: "] followed by the text of that response (by nothing when
    the response has no text). *)
Theorem process_query_without_tools (self : Handlers.OpenAIQueryHandler) (query : string)
    (s : state) catalog w1 response w2 m rest :
  ClientSession_list_tools (Handlers.client_session self) (st_world s) = (Returned catalog, w1) ->
  chat_completions_create (Handlers.openai self) (first_request query catalog) w1
  = (Returned response, w2) ->
  choices response = m :: rest ->
  msg_tool_calls m = None \/ msg_tool_calls m = Some [] ->
  exists (s' : state) (evs : list event),
    Handlers.process_query self query s
    = (Returned ("Assistant: " ++ or_else (msg_content m) "")%string, s')
    /\ st_trace s' = st_trace s ++ evs
    /\ length (engine_calls evs) = 1%nat
    /\ tool_calls_made evs = [].
Proof.
  intros Hlist Hcreate Hchoices Hnone.
  rewrite (process_query_first_call self query s _ _ _ _ _ _ Hlist Hcreate Hchoices).
  cbv zeta. rewrite join_first_text.
  eexists. exists [EvListTools (Returned catalog);
                   EvCreate (first_request query catalog) (Returned response)].
  destruct Hnone as [-> | ->]; (split; [reflexivity|]);
    cbn [st_trace record_event]; rewrite <- app_assoc; repeat split.
Qed.

(** The loop stops at the first invocation whose arguments do not decode:
    those before it have been executed, it and those after it have not. *)
Lemma execute_tools_stops (self : Handlers.OpenAIQueryHandler)
    (pre post : list ToolCall) (tool_call : ToolCall) (e : exn) :
  Forall decodable pre ->
  decode_arguments tool_call = Raised e ->
  forall parts msgs s,
  exists (xs : list executed) (s' : state),
    Handlers.execute_tools self (pre ++ tool_call :: post) parts msgs s = (Raised e, s')
    /\ map executed_call xs = pre
    /\ st_trace s' = st_trace s ++ map executed_event xs.
Proof.
  intros Hpre He parts msgs s.
  destruct (execute_tools_run self pre Hpre parts msgs s)
    as (xs & s' & Hrun & Hxs & _ & Htr & _).
  exists xs, s'. rewrite execute_tools_app, Hrun.
  cbn [Handlers.execute_tools]. unfold bind. rewrite execute_tool_run, He.
  repeat split; assumption.
Qed.

(** C3 (as amended): an invocation whose arguments are absent or empty is
    executed with the empty document; arguments that do not decode are not
    replaced: the decoder's exception leaves [_execute_tool] before the tool
    is called, ends the loop and leaves [process_query], after the engine has
    been called once. *)
Theorem execute_tool_arguments (self : Handlers.OpenAIQueryHandler) (tool_call : ToolCall)
    (s : state) :
  (truthy (fn_arguments (function tool_call)) = false ->
   json_loads "{}" = Returned (JDict []) ->
   exists out w,
     ClientSession_call_tool (Handlers.client_session self)
       (fn_name (function tool_call)) (JDict []) (st_world s) = (out, w)
     /\ Handlers._execute_tool self tool_call s
        = (Returned {| Handlers.log := invocation_log tool_call (JDict []) out;
                       Handlers.tool_turn := invocation_turn tool_call (JDict []) out |},
           record_event (invocation_event tool_call (JDict []) out) s w))
  /\ (forall e,
        decode_arguments tool_call = Raised e ->
        Handlers._execute_tool self tool_call s = (Raised e, s)
        /\ forall query catalog w1 response w2 m rest pre post,
             ClientSession_list_tools (Handlers.client_session self) (st_world s)
             = (Returned catalog, w1) ->
             chat_completions_create (Handlers.openai self) (first_request query catalog) w1
             = (Returned response, w2) ->
             choices response = m :: rest ->
             msg_tool_calls m = Some (pre ++ tool_call :: post) ->
             Forall decodable pre ->
             exists (xs : list executed) (s' : state),
               Handlers.process_query self query s = (Raised e, s')
               /\ map executed_call xs = pre
               /\ st_trace s'
                  = st_trace s
                    ++ [EvListTools (Returned catalog);
                        EvCreate (first_request query catalog) (Returned response)]
                    ++ map executed_event xs).
Proof.
  split.
  - intros Hempty Hjson.
    destruct (ClientSession_call_tool (Handlers.client_session self)
                (fn_name (function tool_call)) (JDict []) (st_world s)) as [out w] eqn:Hcall.
    exists out, w. split; [reflexivity|].
    rewrite execute_tool_run. unfold decode_arguments.
    replace (or_else (fn_arguments (function tool_call)) "{}") with "{}"
      by (destruct (fn_arguments (function tool_call)) as [[|a t]|];
          [reflexivity|discriminate|reflexivity]).
    rewrite Hjson, Hcall. reflexivity.
  - intros e He. split.
    + rewrite execute_tool_run, He. reflexivity.
    + intros query catalog w1 response w2 m rest pre post Hlist Hcreate Hchoices Hcalls Hpre.
      rewrite (process_query_first_call self query s _ _ _ _ _ _ Hlist Hcreate Hchoices).
      rewrite Hcalls. cbv zeta.
      destruct (execute_tools_stops self pre post tool_call e Hpre He
                  (Handlers.append_if_present [] (msg_content m))
                  (conversation query m (pre ++ tool_call :: post) [])
                  (record_event (EvCreate (first_request query catalog) (Returned response))
                     (record_event (EvListTools (Returned catalog)) s w1) w2))
        as (xs & s' & Hrun & Hxs & Htr).
      exists xs, s'.
      destruct (pre ++ tool_call :: post) as [|first more] eqn:Hshape.
      { destruct pre; discriminate Hshape. }
      rewrite Hrun. repeat split; [assumption|].
      rewrite Htr. cbn [st_trace record_event]. rewrite <- !app_assoc. reflexivity.
Qed.

(** A failed execution settles to the error text and to the error text in
    brackets. *)
Lemma settled_failure (tool_name : string) (tool_args : json)
    (out : outcome CallToolResult) (e : exn) :
  execution_failure out = Some e ->
  settled tool_name tool_args out = (error_content e, error_log e).
Proof.
  unfold execution_failure, settled.
  destruct out as [result|e0]; [|now intros [= ->]].
  destruct (content result) as [|part parts]; [discriminate|].
  destruct (Handlers.text_of part) as [text|e0]; [discriminate|now intros [= ->]].
Qed.

(** C4 (as amended): a failure raised while a tool is executed does not
    leave [_execute_tool]: it becomes the log segment ["[Error: ...]"] of the
    answer and the content ["Error: ..."] of the invocation's tool turn.  When
    the arguments of every requested invocation decode, all the invocations
    and the second call to the engine still run, and [process_query] returns
    an answer whenever that second call returns a message. *)
Theorem tool_failure_is_recovered (self : Handlers.OpenAIQueryHandler) (query : string)
    (s : state) catalog w1 response w2 m rest tool_calls :
  ClientSession_list_tools (Handlers.client_session self) (st_world s) = (Returned catalog, w1) ->
  chat_completions_create (Handlers.openai self) (first_request query catalog) w1
  = (Returned response, w2) ->
  choices response = m :: rest ->
  msg_tool_calls m = Some tool_calls ->
  tool_calls <> [] ->
  Forall decodable tool_calls ->
  exists (xs : list executed) (out2 : outcome ChatCompletion) (s' : state),
    let result_parts := Handlers.append_if_present [] (msg_content m) ++ map executed_log xs in
    Handlers.process_query self query s = (final_answer result_parts out2, s')
    /\ map executed_call xs = tool_calls
    /\ st_trace s'
       = st_trace s
         ++ [EvListTools (Returned catalog);
             EvCreate (first_request query catalog) (Returned response)]
         ++ map executed_event xs
         ++ [EvCreate (second_request query m tool_calls (map executed_turn xs)) out2]
    /\ (forall i tool_call tool_args out e,
          nth_error xs i = Some (tool_call, tool_args, out) ->
          execution_failure out = Some e ->
          nth_error (map executed_log xs) i = Some ("[Error: " ++ str_exn e ++ "]")%string
          /\ nth_error (map executed_turn xs) i
             = Some (tool_message (id tool_call) ("Error: " ++ str_exn e)))
    /\ (forall response2 m2 rest2,
          out2 = Returned response2 ->
          choices response2 = m2 :: rest2 ->
          fst (Handlers.process_query self query s)
          = Returned ("Assistant: "
                      ++ join_lines (Handlers.append_if_present result_parts (msg_content m2)))%string).
Proof.
  intros Hlist Hcreate Hchoices Hcalls Hne Hdec.
  destruct (process_query_tool_round_run self query s _ _ _ _ _ _ _
              Hlist Hcreate Hchoices Hcalls Hne Hdec)
    as (xs & out2 & s' & Hrun & Hxs & _ & Htr).
  exists xs, out2, s'. cbv zeta.
  split; [exact Hrun|]. split; [exact Hxs|]. split; [exact Htr|]. split.
  - intros i tool_call tool_args out e Hi Hfail.
    rewrite !nth_error_map, Hi. cbn [option_map executed_log executed_turn].
    unfold invocation_log, invocation_turn.
    rewrite (settled_failure _ _ _ _ Hfail). split; reflexivity.
  - intros response2 m2 rest2 -> Hchoices2. rewrite Hrun.
    cbn [fst final_answer]. unfold Handlers.first_message. rewrite Hchoices2. reflexivity.
Qed.

(** ** Every run of [process_query] *)

Lemma process_query_list_fails (self : Handlers.OpenAIQueryHandler) (query : string)
    (s : state) e w1 :
  ClientSession_list_tools (Handlers.client_session self) (st_world s) = (Raised e, w1) ->
  Handlers.process_query self query s
  = (Raised e, record_event (EvListTools (Raised e)) s w1).
Proof.
  intros Hlist. unfold Handlers.process_query, Handlers._get_tools.
  unfold bind at 1. unfold bind at 1. unfold call at 1. rewrite Hlist. reflexivity.
Qed.

Lemma process_query_create_fails (self : Handlers.OpenAIQueryHandler) (query : string)
    (s : state) catalog w1 e w2 :
  ClientSession_list_tools (Handlers.client_session self) (st_world s) = (Returned catalog, w1) ->
  chat_completions_create (Handlers.openai self) (first_request query catalog) w1
  = (Raised e, w2) ->
  Handlers.process_query self query s
  = (Raised e,
     record_event (EvCreate (first_request query catalog) (Raised e))
       (record_event (EvListTools (Returned catalog)) s w1) w2).
Proof.
  intros Hlist Hcreate. unfold Handlers.process_query, Handlers._get_tools.
  unfold bind at 1. unfold bind at 1. unfold call at 1. rewrite Hlist.
  cbn [ret]. unfold bind at 1. unfold call at 1. cbn [st_world record_event].
  fold (first_request query catalog). rewrite Hcreate. reflexivity.
Qed.

Lemma process_query_no_choice (self : Handlers.OpenAIQueryHandler) (query : string)
    (s : state) catalog w1 response w2 :
  ClientSession_list_tools (Handlers.client_session self) (st_world s) = (Returned catalog, w1) ->
  chat_completions_create (Handlers.openai self) (first_request query catalog) w1
  = (Returned response, w2) ->
  choices response = [] ->
  Handlers.process_query self query s
  = (Raised index_error,
     record_event (EvCreate (first_request query catalog) (Returned response))
       (record_event (EvListTools (Returned catalog)) s w1) w2).
Proof.
  intros Hlist Hcreate Hchoices. unfold Handlers.process_query, Handlers._get_tools.
  unfold bind at 1. unfold bind at 1. unfold call at 1. rewrite Hlist.
  cbn [ret]. unfold bind at 1. unfold call at 1. cbn [st_world record_event].
  fold (first_request query catalog). rewrite Hcreate.
  unfold bind at 1. unfold lift at 1, Handlers.first_message. rewrite Hchoices. reflexivity.
Qed.

(** A run calls the engine at most twice.  With fewer than two calls, what
    it raises is [IndexError] or what a collaborator raised; with two, the
    outcome of the second call decides how it ends. *)
Lemma process_query_any (self : Handlers.OpenAIQueryHandler) (query : string) (s : state) :
  exists evs : list event,
    st_trace (snd (Handlers.process_query self query s)) = st_trace s ++ evs
    /\ ((length (engine_calls evs) <= 1)%nat
        /\ (forall e, fst (Handlers.process_query self query s) = Raised e ->
                      e = index_error \/ raised_to_process_query e evs)
        \/ exists first request out2 parts,
             engine_calls evs = [first; (request, out2)]
             /\ In (EvCreate request out2) evs
             /\ fst (Handlers.process_query self query s) = final_answer parts out2).
Proof.
  destruct (ClientSession_list_tools (Handlers.client_session self) (st_world s))
    as [[catalog|e0] w1] eqn:Hlist.
  2:{ exists [EvListTools (Raised e0)].
      rewrite (process_query_list_fails self query s _ _ Hlist). cbn [fst snd].
      split; [reflexivity|]. left. split; [cbn; lia|].
      intros e [= <-]. right. left. now left. }
  destruct (chat_completions_create (Handlers.openai self) (first_request query catalog) w1)
    as [[response|e0] w2] eqn:Hcreate.
  2:{ exists [EvListTools (Returned catalog); EvCreate (first_request query catalog) (Raised e0)].
      rewrite (process_query_create_fails self query s _ _ _ _ Hlist Hcreate). cbn [fst snd].
      split; [cbn [st_trace record_event]; now rewrite <- app_assoc|].
      left. split; [cbn; lia|].
      intros e [= <-]. right. right. left. eexists. right. now left. }
  destruct (choices response) as [|m rest] eqn:Hchoices.
  { exists [EvListTools (Returned catalog);
            EvCreate (first_request query catalog) (Returned response)].
    rewrite (process_query_no_choice self query s _ _ _ _ Hlist Hcreate Hchoices).
    cbn [fst snd].
    split; [cbn [st_trace record_event]; now rewrite <- app_assoc|].
    left. split; [cbn; lia|]. intros e [= <-]. now left. }
  rewrite (process_query_first_call self query s _ _ _ _ _ _ Hlist Hcreate Hchoices).
  cbv zeta.
  set (s2 := record_event (EvCreate (first_request query catalog) (Returned response))
               (record_event (EvListTools (Returned catalog)) s w1) w2).
  assert (Hs2 : st_trace s2
                = st_trace s ++ [EvListTools (Returned catalog);
                                 EvCreate (first_request query catalog) (Returned response)]).
  { subst s2. cbn [st_trace record_event]. now rewrite <- app_assoc. }
  destruct (msg_tool_calls m) as [[|tool_call more]|].
  1,3: eexists; split; [exact Hs2|]; left; split; [cbn; lia|discriminate].
  destruct (execute_tools_any self (tool_call :: more)
              (Handlers.append_if_present [] (msg_content m))
              (conversation query m (tool_call :: more) []) s2) as (xs & Htr & Hraise).
  destruct (Handlers.execute_tools self (tool_call :: more) _ _ s2)
    as [[[result_parts messages]|e0] s3].
  - destruct (chat_completions_create _ _ (st_world s3)) as [out2 w4].
    eexists. split.
    + cbn [snd st_trace record_event]. cbn [snd] in Htr. rewrite Htr, Hs2.
      rewrite <- !app_assoc. reflexivity.
    + right. eexists. eexists. exists out2, result_parts. split; [|split].
      * rewrite !engine_calls_app, engine_calls_executed. reflexivity.
      * rewrite !in_app_iff. right. right. now left.
      * reflexivity.
  - eexists. split.
    + cbn [snd] in *. rewrite Htr, Hs2, <- app_assoc. reflexivity.
    + left. split.
      * rewrite !engine_calls_app, engine_calls_executed. cbn. lia.
      * intros e [= <-]. right. right. right. apply Hraise. reflexivity.
Qed.

(** C8: when the second call to the engine fails, [process_query] raises
    that failure and returns no answer: the first text and the log segments
    gathered so far are not delivered. *)
Theorem second_call_failure_is_raised (self : Handlers.OpenAIQueryHandler) (query : string)
    (s : state) (evs : list event) first request (e : exn) :
  st_trace (snd (Handlers.process_query self query s)) = st_trace s ++ evs ->
  engine_calls evs = [first; (request, Raised e)] ->
  fst (Handlers.process_query self query s) = Raised e
  /\ forall answer, fst (Handlers.process_query self query s) <> Returned answer.
Proof.
  intros Htr Hcalls.
  destruct (process_query_any self query s) as (evs' & Htr' & Hshape).
  rewrite Htr in Htr'. apply app_inv_head in Htr'. subst evs'.
  assert (Hraised : fst (Handlers.process_query self query s) = Raised e).
  { destruct Hshape as [[Hle _] | (first' & request' & out2 & parts & Hcalls' & _ & Hend)].
    - rewrite Hcalls in Hle. cbn in Hle. lia.
    - rewrite Hcalls in Hcalls'. injection Hcalls' as _ _ Hout.
      rewrite <- Hout in Hend. exact Hend. }
  split; [exact Hraised|]. intros answer. rewrite Hraised. discriminate.
Qed.

(** ** The handler's construction *)

(** C7: without a credential in the environment, constructing the handler
    raises the configuration error, there and then; with one, construction
    succeeds, and the configuration error can leave a later [process_query]
    only if a collaborator raised it to [process_query]. *)
Theorem credential_is_checked_at_construction (session : ClientSession) (s : state) :
  (truthy (os_getenv "OPENAI_API_KEY" (st_world s)) = false ->
   Handlers.__init__ session s = (Raised missing_credential, s))
  /\ (truthy (os_getenv "OPENAI_API_KEY" (st_world s)) = true ->
      exists self, Handlers.__init__ session s = (Returned self, s))
  /\ (forall self s0,
        Handlers.__init__ session s = (Returned self, s0) ->
        forall query s1,
        exists evs,
          st_trace (snd (Handlers.process_query self query s1)) = st_trace s1 ++ evs
          /\ (fst (Handlers.process_query self query s1) = Raised missing_credential ->
              raised_to_process_query missing_credential evs)).
Proof.
  unfold Handlers.__init__.
  destruct (os_getenv "OPENAI_API_KEY" (st_world s)) as [[|c k]|]; cbn [truthy];
    (split; [first [discriminate | reflexivity]|]);
    (split; [first [discriminate | intros _; eexists; reflexivity]|]);
    intros self s0 _ query s1;
    destruct (process_query_any self query s1)
      as (evs & Htr & [[_ Hraise] | (first & request & out2 & parts & _ & Hin & Hend)]);
    exists evs; (split; [exact Htr|]); intros Hmc.
  all: try (destruct (Hraise _ Hmc) as [Hidx|Hcol]; [discriminate Hidx|exact Hcol]).
  all: rewrite Hend in Hmc; destruct out2 as [response|e]; cbn [final_answer] in Hmc.
  all: try (injection Hmc as ->; right; left; exists request; exact Hin).
  all: unfold Handlers.first_message in Hmc; destruct (choices response); discriminate Hmc.
Qed.

(** ** The catalog *)

(** C9: [_get_tools] turns every listed tool into an entry with the tool's
    name unchanged, the description or, when there is none, ["No
    description"], and the tool's schema or, when the tool carries none, the
    schema of an object without properties. *)
Theorem get_tools_adapts_catalog (self : Handlers.OpenAIQueryHandler) (s : state) catalog w :
  ClientSession_list_tools (Handlers.client_session self) (st_world s) = (Returned catalog, w) ->
  Handlers._get_tools self s
  = (Returned (map Handlers.format_tool catalog),
     record_event (EvListTools (Returned catalog)) s w)
  /\ forall tool,
       In tool catalog ->
       function_field "name" (Handlers.format_tool tool) = Some (JStr (name tool))
       /\ (description tool = None ->
           function_field "description" (Handlers.format_tool tool)
           = Some (JStr "No description"))
       /\ (description tool = Some "" ->
           function_field "description" (Handlers.format_tool tool)
           = Some (JStr "No description"))
       /\ (forall text,
             description tool = Some text -> text <> "" ->
             function_field "description" (Handlers.format_tool tool) = Some (JStr text))
       /\ (inputSchema tool = None ->
           function_field "parameters" (Handlers.format_tool tool)
           = Some (JDict [("type", JStr "object"); ("properties", JDict [])]))
       /\ (forall schema,
             inputSchema tool = Some schema ->
             function_field "parameters" (Handlers.format_tool tool) = Some schema).
Proof.
  intros Hlist. split.
  - unfold Handlers._get_tools, bind, call, ret. rewrite Hlist. reflexivity.
  - intros tool _. unfold function_field, Handlers.format_tool. cbn.
    repeat split.
    + intros ->. reflexivity.
    + intros ->. reflexivity.
    + intros text -> Htext. destruct text as [|c t]; [contradiction|reflexivity].
    + intros ->. reflexivity.
    + intros schema ->. reflexivity.
Qed.

(** ** The connection *)

(** [_connect_to_server], step by step. *)
Lemma connect_run (self : Mcp_client.MCPClient) (s : state) :
  let path := Path_resolve (Mcp_client.server_path self) (st_world s) in
  let found := Path_exists path (st_world s) in
  let s1 := record_event (EvExists path found) s (st_world s) in
  Mcp_client._connect_to_server self s =
  if negb found then (Raised (not_found path), s1)
  else
    match stdio_client_enter (server_for path) (st_world s) with
    | (Raised e, w1) =>
        (Raised (connect_failed e), record_event (EvSpawn (server_for path) (Raised e)) s1 w1)
    | (Returned streams, w1) =>
        let s2 := record_event (EvSpawn (server_for path) (Returned streams)) s1 w1 in
        match ClientSession_enter streams w1 with
        | (Raised e, w2) =>
            (Raised (connect_failed e), record_event (EvSession (Raised e)) s2 w2)
        | (Returned session, w2) =>
            let s3 := record_event (EvSession (Returned session)) s2 w2 in
            match ClientSession_initialize session w2 with
            | (Raised e, w3) =>
                (Raised (connect_failed e), record_event (EvInitialize (Raised e)) s3 w3)
            | (Returned u, w3) =>
                (Returned session, record_event (EvInitialize (Returned u)) s3 w3)
            end
        end
    end.
Proof.
  cbv zeta.
  unfold Mcp_client._connect_to_server, Mcp_client.resolve, Mcp_client.exists_.
  unfold bind at 1. unfold bind at 1.
  destruct (Path_exists _ (st_world s)); cbn [negb]; [|reflexivity].
  destruct (sys_platform =? "win32")%string; cbn beta iota zeta;
    fold (server_for (Path_resolve (Mcp_client.server_path self) (st_world s)));
    unfold try_except, bind, call, raise, ret; cbn [st_world record_event];
    destruct (stdio_client_enter _ _) as [[streams|e] w1]; try reflexivity;
    destruct (ClientSession_enter _ _) as [[session|e] w2]; try reflexivity;
    destruct (ClientSession_initialize _ _) as [[u|e] w3]; reflexivity.
Qed.

(** Whatever [_connect_to_server] raises is one of its two [RuntimeError]s. *)
Lemma connect_raises_runtime_error (self : Mcp_client.MCPClient) (s : state) e s' :
  Mcp_client._connect_to_server self s = (Raised e, s') ->
  is_RuntimeError e = true
  /\ (e = not_found (Path_resolve (Mcp_client.server_path self) (st_world s))
      \/ exists cause, e = connect_failed cause).
Proof.
  rewrite connect_run. cbv zeta.
  destruct (Path_exists _ (st_world s)); cbn [negb].
  - destruct (stdio_client_enter _ _) as [[streams|e1] w1].
    + destruct (ClientSession_enter _ _) as [[session|e2] w2].
      * destruct (ClientSession_initialize _ _) as [[u|e3] w3]; [discriminate|].
        intros [= <- _]. split; [reflexivity|]. right. now exists e3.
      * intros [= <- _]. split; [reflexivity|]. right. now exists e2.
    + intros [= <- _]. split; [reflexivity|]. right. now exists e1.
  - intros [= <- _]. split; [reflexivity|]. now left.
Qed.

(** C5: [_connect_to_server] begins by looking for the resolved script, so
    whatever it starts, it starts after that check; when the script is not
    there, it raises the not-found [RuntimeError] with nothing else done: no
    server was asked for. *)
Theorem connect_checks_the_script_first (self : Mcp_client.MCPClient) (s : state) :
  let path := Path_resolve (Mcp_client.server_path self) (st_world s) in
  (exists rest,
      st_trace (snd (Mcp_client._connect_to_server self s))
      = st_trace s ++ EvExists path (Path_exists path (st_world s)) :: rest)
  /\ (Path_exists path (st_world s) = false ->
      Mcp_client._connect_to_server self s
      = (Raised (runtime_error ("Server script not found: " ++ path)),
         record_event (EvExists path false) s (st_world s))
      /\ spawn_attempts (st_trace (snd (Mcp_client._connect_to_server self s)))
         = spawn_attempts (st_trace s)).
Proof.
  cbv zeta. rewrite connect_run. cbv zeta. split.
  - destruct (Path_exists _ (st_world s)); cbn [negb].
    + destruct (stdio_client_enter _ _) as [[streams|e1] w1];
        [destruct (ClientSession_enter _ _) as [[session|e2] w2];
         [destruct (ClientSession_initialize _ _) as [[u|e3] w3]|]|];
        eexists; cbn [snd st_trace record_event]; rewrite <- ?app_assoc; reflexivity.
    + exists []. reflexivity.
  - intros ->. cbn [negb snd st_trace record_event]. split; [reflexivity|].
    rewrite spawn_attempts_app. cbn. now rewrite app_nil_r.
Qed.

(** C6: an exception raised while the server is started, its session opened
    or the handshake made leaves [_connect_to_server] as a [RuntimeError]
    whose text is prefixed and ends with the exception's own and whose cause
    is the exception: never as the exception itself. *)
Theorem connect_wraps_failures (self : Mcp_client.MCPClient) (s : state)
    (evs : list event) (e : exn) :
  st_trace (snd (Mcp_client._connect_to_server self s)) = st_trace s ++ evs ->
  raised_while_connecting e evs ->
  let wrapped := runtime_error_from ("Failed to connect to server: " ++ str_exn e) e in
  fst (Mcp_client._connect_to_server self s) = Raised wrapped
  /\ exn_cause wrapped = Some e
  /\ is_RuntimeError wrapped = true
  /\ fst (Mcp_client._connect_to_server self s) <> Raised e.
Proof.
  intros Htr Hraised wrapped.
  assert (Hgoal : fst (Mcp_client._connect_to_server self s) = Raised wrapped).
  { subst wrapped. revert Htr. rewrite connect_run. cbv zeta.
    destruct (Path_exists _ (st_world s)); cbn [negb];
      [destruct (stdio_client_enter _ _) as [[streams|e1] w1];
       [destruct (ClientSession_enter _ _) as [[session|e2] w2];
        [destruct (ClientSession_initialize _ _) as [[u|e3] w3]|]|]|];
      cbn [fst snd st_trace record_event]; rewrite <- ?app_assoc; intros Htr;
      apply app_inv_head in Htr; subst evs;
      destruct Hraised as [[server Hin] | [Hin | Hin]]; cbn [In app] in Hin;
      repeat (destruct Hin as [Hin|Hin]; [try discriminate Hin|]);
      try contradiction;
      inversion Hin; subst; reflexivity. }
  split; [exact Hgoal|]. split; [reflexivity|]. split; [reflexivity|].
  rewrite Hgoal. intros [= Heq]. exact (exn_from_neq e _ _ Heq).
Qed.

(** ** The entry point *)

(** C10 (as amended): when the script is not there, and when the connection
    fails, the entry point prints one line that says so and returns: the
    process exits with status 0. *)
Theorem cli_reports_and_exits_zero (args : Namespace) (s : state) :
  let path := ns_server_path args in
  (Path_exists path (st_world s) = false ->
   Main.cli_main args s
   = (0%Z,
      record_event (EvPrint ("Error: Server script '" ++ path ++ "' not found"))
        (record_event (EvExists path false) s (st_world s)) (st_world s)))
  /\ (forall e s',
        Path_exists path (st_world s) = true ->
        Mcp_client._connect_to_server {| Mcp_client.server_path := path |}
          (record_event (EvExists path true) s (st_world s)) = (Raised e, s') ->
        Main.cli_main args s = (0%Z, record_event (EvPrint (str_exn e)) s' (st_world s'))
        /\ ((exists resolved, str_exn e = "Server script not found: " ++ resolved)
            \/ exists cause, str_exn e = "Failed to connect to server: " ++ str_exn cause))%string.
Proof.
  cbv zeta. unfold Main.cli_main, Main.main, Mcp_client.exists_. split.
  - intros Hmissing. unfold bind at 1. rewrite Hmissing. reflexivity.
  - intros e s' Hfound Hconnect. unfold bind at 1. rewrite Hfound. cbn [negb].
    destruct (connect_raises_runtime_error _ _ _ _ Hconnect) as [Hrt Hshape].
    split.
    + unfold try_except_RuntimeError, Mcp_client.async_with, Mcp_client.__aenter__.
      unfold bind at 1. unfold bind at 1. rewrite Hconnect, Hrt. reflexivity.
    + destruct Hshape as [-> | [cause ->]]; [left|right]; eexists; reflexivity.
Qed.

End Properties.

(** * More properties *)

Section MoreProperties.
Context {R : Runtime}.

(** ** Traces *)

Lemma listings_app (a b : list event) : listings (a ++ b) = listings a ++ listings b.
Proof. unfold listings. apply flat_map_app. Qed.

Lemma closings_app (a b : list event) : closings (a ++ b) = closings a ++ closings b.
Proof. unfold closings. apply flat_map_app. Qed.

Lemma printed_app (a b : list event) : printed (a ++ b) = printed a ++ printed b.
Proof. unfold printed. apply flat_map_app. Qed.

Lemma sessions_opened_app (a b : list event) :
  sessions_opened (a ++ b) = sessions_opened a ++ sessions_opened b.
Proof. unfold sessions_opened. apply flat_map_app. Qed.

Lemma handshakes_app (a b : list event) : handshakes (a ++ b) = handshakes a ++ handshakes b.
Proof. unfold handshakes. apply flat_map_app. Qed.

Lemma listings_executed (xs : list executed) : listings (map executed_event xs) = [].
Proof.
  induction xs as [|[[tool_call tool_args] out] xs IH]; [reflexivity|exact IH].
Qed.

Lemma printed_prints (lines : list string) : printed (map EvPrint lines) = lines.
Proof.
  induction lines as [|line lines IH]; [reflexivity|]. simpl. now rewrite IH.
Qed.



(** ** Every run of [process_query], by its trace *)

(** The three shapes of a run: the catalog could not be listed; the run
    ended after the first call, perhaps with some invocations executed; the
    run made its second call, which is then the last thing it did. *)
Lemma process_query_shapes (self : Handlers.OpenAIQueryHandler) (query : string) (s : state) :
  exists evs : list event,
    st_trace (snd (Handlers.process_query self query s)) = st_trace s ++ evs
    /\ (forall answer,
          fst (Handlers.process_query self query s) = Returned answer ->
          starts_with "Assistant: " answer)
    /\ ((exists e, evs = [EvListTools (Raised e)])
        \/ (exists catalog out1 xs,
              evs = EvListTools (Returned catalog)
                    :: EvCreate (first_request query catalog) out1
                    :: map executed_event xs)
        \/ (exists catalog response xs request out2,
              evs = EvListTools (Returned catalog)
                    :: EvCreate (first_request query catalog) (Returned response)
                    :: map executed_event xs ++ [EvCreate request out2]
              /\ tools request = None)).
Proof.
  destruct (ClientSession_list_tools (Handlers.client_session self) (st_world s))
    as [[catalog|e0] w1] eqn:Hlist.
  2:{ exists [EvListTools (Raised e0)].
      rewrite (process_query_list_fails self query s _ _ Hlist). cbn [fst snd].
      split; [reflexivity|]. split; [discriminate|]. left. now exists e0. }
  destruct (chat_completions_create (Handlers.openai self) (first_request query catalog) w1)
    as [[response|e0] w2] eqn:Hcreate.
  2:{ exists [EvListTools (Returned catalog); EvCreate (first_request query catalog) (Raised e0)].
      rewrite (process_query_create_fails self query s _ _ _ _ Hlist Hcreate). cbn [fst snd].
      split; [cbn [st_trace record_event]; now rewrite <- app_assoc|].
      split; [discriminate|]. right. left. now exists catalog, (Raised e0), []. }
  destruct (choices response) as [|m rest] eqn:Hchoices.
  { exists [EvListTools (Returned catalog);
            EvCreate (first_request query catalog) (Returned response)].
    rewrite (process_query_no_choice self query s _ _ _ _ Hlist Hcreate Hchoices).
    cbn [fst snd].
    split; [cbn [st_trace record_event]; now rewrite <- app_assoc|].
    split; [discriminate|]. right. left. now exists catalog, (Returned response), []. }
  rewrite (process_query_first_call self query s _ _ _ _ _ _ Hlist Hcreate Hchoices).
  cbv zeta.
  set (s2 := record_event (EvCreate (first_request query catalog) (Returned response))
               (record_event (EvListTools (Returned catalog)) s w1) w2).
  assert (Hs2 : st_trace s2
                = st_trace s ++ [EvListTools (Returned catalog);
                                 EvCreate (first_request query catalog) (Returned response)]).
  { subst s2. cbn [st_trace record_event]. now rewrite <- app_assoc. }
  destruct (msg_tool_calls m) as [[|tool_call more]|].
  1,3: eexists; split; [exact Hs2|]; cbn [fst]; split;
       [intros answer [= <-]; eexists; reflexivity
       |right; left; now exists catalog, (Returned response), []].
  destruct (execute_tools_any self (tool_call :: more)
              (Handlers.append_if_present [] (msg_content m))
              (conversation query m (tool_call :: more) []) s2) as (xs & Htr & _).
  destruct (Handlers.execute_tools self (tool_call :: more) _ _ s2)
    as [[[result_parts messages]|e0] s3].
  - destruct (chat_completions_create _ _ (st_world s3)) as [out2 w4].
    eexists. split; [|split].
    + cbn [snd st_trace record_event]. cbn [snd] in Htr. rewrite Htr, Hs2.
      rewrite <- !app_assoc. reflexivity.
    + cbn [fst]. unfold final_answer, Handlers.first_message.
      destruct out2 as [final|e]; [|discriminate].
      destruct (choices final); [discriminate|].
      intros answer [= <-]. eexists. reflexivity.
    + right. right. exists catalog, response, xs. eexists. exists out2.
      split; reflexivity.
  - eexists. split; [|split].
    + cbn [snd] in *. rewrite Htr, Hs2, <- app_assoc. reflexivity.
    + discriminate.
    + right. left. now exists catalog, (Returned response), xs.
Qed.

(** X1: a run of [process_query] lists the catalog exactly once, before
    anything else, and calls the engine at most twice; a second call passes no
    tool list and is the last thing the run does, so that invocations the
    second response may request are never executed. *)
Theorem process_query_round_trips (self : Handlers.OpenAIQueryHandler) (query : string)
    (s : state) :
  exists evs : list event,
    st_trace (snd (Handlers.process_query self query s)) = st_trace s ++ evs
    /\ (exists out rest, evs = EvListTools out :: rest)
    /\ listings evs = [Tools]
    /\ (length (engine_calls evs) <= 2)%nat
    /\ (length (engine_calls evs) = 2%nat ->
        exists before request out2,
          evs = before ++ [EvCreate request out2] /\ tools request = None).
Proof.
  destruct (process_query_shapes self query s)
    as (evs & Htr & _ & [[e ->] | [(catalog & out1 & xs & ->)
                                  | (catalog & response & xs & request & out2 & -> & Hnone)]]).
  - exists [EvListTools (Raised e)]. split; [exact Htr|].
    split; [now exists (Raised e), []|]. split; [reflexivity|].
    split; [cbn; lia|cbn; discriminate].
  - eexists. split; [exact Htr|]. split; [eexists; eexists; reflexivity|].
    change (EvListTools (Returned catalog)
            :: EvCreate (first_request query catalog) out1 :: map executed_event xs)
      with ([EvListTools (Returned catalog); EvCreate (first_request query catalog) out1]
            ++ map executed_event xs).
    rewrite listings_app, listings_executed, engine_calls_app, engine_calls_executed.
    split; [reflexivity|]. split; [cbn; lia|cbn; discriminate].
  - eexists. split; [exact Htr|]. split; [eexists; eexists; reflexivity|].
    change (EvListTools (Returned catalog)
            :: EvCreate (first_request query catalog) (Returned response)
            :: map executed_event xs ++ [EvCreate request out2])
      with ([EvListTools (Returned catalog);
             EvCreate (first_request query catalog) (Returned response)]
            ++ map executed_event xs ++ [EvCreate request out2]).
    rewrite !listings_app, listings_executed, !engine_calls_app, engine_calls_executed.
    split; [reflexivity|]. split; [cbn; lia|].
    intros _. eexists. exists request, out2. split; [|exact Hnone].
    rewrite app_assoc. reflexivity.
Qed.

(** X2: every answer [process_query] returns begins with ["Assistant: "]. *)
Theorem process_query_answer_is_prefixed (self : Handlers.OpenAIQueryHandler) (query : string)
    (s : state) (answer : string) :
  fst (Handlers.process_query self query s) = Returned answer ->
  starts_with "Assistant: " answer.
Proof.
  destruct (process_query_shapes self query s) as (evs & _ & Hprefix & _).
  apply Hprefix.
Qed.


(** X3: when the catalog cannot be listed, or when the first call to the
    engine fails, [process_query] raises that failure; the engine has then
    been called not at all, or once, and no tool has been called. *)
Theorem first_call_failures_are_raised (self : Handlers.OpenAIQueryHandler) (query : string)
    (s : state) :
  (forall e w1,
      ClientSession_list_tools (Handlers.client_session self) (st_world s) = (Raised e, w1) ->
      exists s',
        Handlers.process_query self query s = (Raised e, s')
        /\ st_trace s' = st_trace s ++ [EvListTools (Raised e)])
  /\ (forall catalog w1 e w2,
        ClientSession_list_tools (Handlers.client_session self) (st_world s)
        = (Returned catalog, w1) ->
        chat_completions_create (Handlers.openai self) (first_request query catalog) w1
        = (Raised e, w2) ->
        exists s',
          Handlers.process_query self query s = (Raised e, s')
          /\ st_trace s'
             = st_trace s
               ++ [EvListTools (Returned catalog);
                   EvCreate (first_request query catalog) (Raised e)]).
Proof.
  split.
  - intros e w1 Hlist. eexists.
    split; [exact (process_query_list_fails self query s _ _ Hlist)|reflexivity].
  - intros catalog w1 e w2 Hlist Hcreate. eexists.
    split; [exact (process_query_create_fails self query s _ _ _ _ Hlist Hcreate)|].
    cbn [st_trace record_event]. now rewrite <- app_assoc.
Qed.

(** X4: a response without choices makes [process_query] raise [IndexError]:
    at the first call before any tool is called, and at the second call after
    every requested invocation has been executed, whose log segments are then
    lost. *)
Theorem empty_choices_raise_index_error (self : Handlers.OpenAIQueryHandler) (query : string)
    (s : state) catalog w1 response w2 :
  ClientSession_list_tools (Handlers.client_session self) (st_world s) = (Returned catalog, w1) ->
  chat_completions_create (Handlers.openai self) (first_request query catalog) w1
  = (Returned response, w2) ->
  (choices response = [] ->
   exists s',
     Handlers.process_query self query s = (Raised index_error, s')
     /\ st_trace s'
        = st_trace s
          ++ [EvListTools (Returned catalog);
              EvCreate (first_request query catalog) (Returned response)])
  /\ (forall m rest tool_calls,
        choices response = m :: rest ->
        msg_tool_calls m = Some tool_calls ->
        tool_calls <> [] ->
        Forall decodable tool_calls ->
        exists xs out2 s',
          snd (Handlers.process_query self query s) = s'
          /\ map executed_call xs = tool_calls
          /\ st_trace s'
             = st_trace s
               ++ [EvListTools (Returned catalog);
                   EvCreate (first_request query catalog) (Returned response)]
               ++ map executed_event xs
               ++ [EvCreate (second_request query m tool_calls (map executed_turn xs)) out2]
          /\ (forall response2,
                out2 = Returned response2 ->
                choices response2 = [] ->
                fst (Handlers.process_query self query s) = Raised index_error)).
Proof.
  intros Hlist Hcreate. split.
  - intros Hchoices. eexists.
    split; [exact (process_query_no_choice self query s _ _ _ _ Hlist Hcreate Hchoices)|].
    cbn [st_trace record_event]. now rewrite <- app_assoc.
  - intros m rest tool_calls Hchoices Hcalls Hne Hdec.
    destruct (process_query_tool_round_run self query s _ _ _ _ _ _ _
                Hlist Hcreate Hchoices Hcalls Hne Hdec)
      as (xs & out2 & s' & Hrun & Hxs & _ & Htr).
    exists xs, out2, s'. rewrite Hrun. cbn [fst snd].
    split; [reflexivity|]. split; [exact Hxs|]. split; [exact Htr|].
    intros response2 -> Hnone. cbn [final_answer].
    unfold Handlers.first_message. rewrite Hnone. reflexivity.
Qed.

Lemma turn_ids_executed (xs : list executed) :
  map turn_id (map executed_turn xs) = map (fun x => Some (id (executed_call x))) xs.
Proof.
  induction xs as [|[[tool_call tool_args] out] xs IH]; [reflexivity|].
  simpl. now rewrite IH.
Qed.

(** X5: in the request of the second call, the conversation is the query,
    the assistant turn that carries the invocations as the engine listed
    them, and then one tool turn per invocation, in the same order, each
    under the id of its invocation. *)
Theorem tool_turns_answer_the_invocations (self : Handlers.OpenAIQueryHandler)
    (query : string) (s : state) catalog w1 response w2 m rest tool_calls :
  ClientSession_list_tools (Handlers.client_session self) (st_world s) = (Returned catalog, w1) ->
  chat_completions_create (Handlers.openai self) (first_request query catalog) w1
  = (Returned response, w2) ->
  choices response = m :: rest ->
  msg_tool_calls m = Some tool_calls ->
  tool_calls <> [] ->
  Forall decodable tool_calls ->
  exists evs turns out2,
    st_trace (snd (Handlers.process_query self query s)) = st_trace s ++ evs
    /\ engine_calls evs
       = [(first_request query catalog, Returned response);
          ({| model := Handlers.MODEL; max_tokens := Handlers.MAX_TOKENS;
              messages := [user_message query;
                           assistant_message (or_else (msg_content m) "") tool_calls]
                          ++ turns;
              tools := None |}, out2)]
    /\ map turn_id turns = map (fun tool_call => Some (id tool_call)) tool_calls.
Proof.
  intros Hlist Hcreate Hchoices Hcalls Hne Hdec.
  destruct (process_query_tool_round_run self query s _ _ _ _ _ _ _
              Hlist Hcreate Hchoices Hcalls Hne Hdec)
    as (xs & out2 & s' & Hrun & Hxs & _ & Htr).
  eexists. exists (map executed_turn xs), out2. rewrite Hrun. cbn [snd].
  split; [exact Htr|]. split.
  - rewrite !engine_calls_app, engine_calls_executed. reflexivity.
  - rewrite turn_ids_executed, <- Hxs, map_map. reflexivity.
Qed.

(** X6: the content of a tool turn is the text of the first part of the
    result, whatever parts follow it, and the empty string when the result
    has no part; the log segment names the tool and its arguments. *)
Theorem only_the_first_part_is_used (self : Handlers.OpenAIQueryHandler)
    (tool_call : ToolCall) (s : state) tool_args result w :
  decode_arguments tool_call = Returned tool_args ->
  ClientSession_call_tool (Handlers.client_session self)
    (fn_name (function tool_call)) tool_args (st_world s) = (Returned result, w) ->
  let s' := record_event
              (EvCallTool (fn_name (function tool_call)) tool_args (Returned result)) s w in
  let log := ("[Used " ++ fn_name (function tool_call)
              ++ "(" ++ format_value tool_args ++ ")]")%string in
  (content result = [] ->
   Handlers._execute_tool self tool_call s
   = (Returned {| Handlers.log := log;
                  Handlers.tool_turn := tool_message (id tool_call) "" |}, s'))
  /\ (forall text rest,
        content result = TextContent text :: rest ->
        Handlers._execute_tool self tool_call s
        = (Returned {| Handlers.log := log;
                       Handlers.tool_turn := tool_message (id tool_call) text |}, s')).
Proof.
  intros Hdec Hcall s' log. rewrite execute_tool_run, Hdec, Hcall.
  unfold invocation_log, invocation_turn, invocation_event, settled.
  split.
  - intros ->. reflexivity.
  - intros text rest ->. reflexivity.
Qed.

(** X7: when the first part of a result is not text, the invocation is
    settled as a failure although the tool call returned: the tool turn and
    the log segment carry the [AttributeError] of [.text], whatever parts
    follow. *)
Theorem first_part_without_text_is_an_error (self : Handlers.OpenAIQueryHandler)
    (tool_call : ToolCall) (s : state) tool_args result w class_name rest :
  decode_arguments tool_call = Returned tool_args ->
  ClientSession_call_tool (Handlers.client_session self)
    (fn_name (function tool_call)) tool_args (st_world s) = (Returned result, w) ->
  content result = OtherContent class_name :: rest ->
  let complaint := ("'" ++ class_name ++ "' object has no attribute 'text'")%string in
  Handlers._execute_tool self tool_call s
  = (Returned {| Handlers.log := ("[Error: " ++ complaint ++ "]")%string;
                 Handlers.tool_turn :=
                   tool_message (id tool_call) ("Error: " ++ complaint) |},
     record_event
       (EvCallTool (fn_name (function tool_call)) tool_args (Returned result)) s w).
Proof.
  intros Hdec Hcall Hcontent complaint. rewrite execute_tool_run, Hdec, Hcall.
  unfold invocation_log, invocation_turn, invocation_event, settled.
  rewrite Hcontent. reflexivity.
Qed.

(** ** The connection and the client *)

(** X8: when the script is there and the server starts, opens its session
    and greets, [_connect_to_server] returns the session after exactly these
    four steps, in this order; the server it starts is the interpreter with
    the resolved path as its only argument and no environment, whatever the
    platform is. *)
Theorem connect_starts_the_interpreter (self : Mcp_client.MCPClient) (s : state)
    streams w1 session w2 u w3 :
  let path := Path_resolve (Mcp_client.server_path self) (st_world s) in
  let server := {| command := sys_executable; args := [path]; env := None |} in
  Path_exists path (st_world s) = true ->
  stdio_client_enter server (st_world s) = (Returned streams, w1) ->
  ClientSession_enter streams w1 = (Returned session, w2) ->
  ClientSession_initialize session w2 = (Returned u, w3) ->
  exists s',
    Mcp_client._connect_to_server self s = (Returned session, s')
    /\ st_world s' = w3
    /\ class_client_session s' = class_client_session s
    /\ st_trace s'
       = st_trace s
         ++ [EvExists path true; EvSpawn server (Returned streams);
             EvSession (Returned session); EvInitialize (Returned u)].
Proof.
  intros path server Hfound Hspawn Hsession Hgreet.
  rewrite connect_run. cbv zeta. fold path. rewrite Hfound. cbn [negb].
  change (server_for path) with server. rewrite Hspawn, Hsession, Hgreet.
  eexists. split; [reflexivity|]. cbn [st_world st_trace class_client_session record_event].
  repeat split. now rewrite <- !app_assoc.
Qed.

(** What [_connect_to_server] writes to the trace, however it ends. *)
Lemma connect_events (self : Mcp_client.MCPClient) (s : state) :
  exists evs : list event,
    st_trace (snd (Mcp_client._connect_to_server self s)) = st_trace s ++ evs
    /\ class_client_session (snd (Mcp_client._connect_to_server self s))
       = class_client_session s
    /\ closings evs = []
    /\ (length (spawn_attempts evs) <= 1)%nat
    /\ (length (sessions_opened evs) <= 1)%nat
    /\ (length (handshakes evs) <= 1)%nat
    /\ (forall server e,
          In (EvSpawn server (Raised e)) evs ->
          sessions_opened evs = [] /\ handshakes evs = [])
    /\ (forall e, In (EvSession (Raised e)) evs -> handshakes evs = []).
Proof.
  rewrite connect_run. cbv zeta.
  destruct (Path_exists _ (st_world s)); cbn [negb];
    [destruct (stdio_client_enter _ _) as [[streams|e1] w1];
     [destruct (ClientSession_enter _ _) as [[session|e2] w2];
      [destruct (ClientSession_initialize _ _) as [[u|e3] w3]|]|]|];
    eexists; cbn [snd st_trace class_client_session record_event];
    rewrite <- ?app_assoc;
    (split; [reflexivity|]); (split; [reflexivity|]); (split; [reflexivity|]);
    cbn; repeat split; try lia; intros; intuition discriminate.
Qed.

(** X9: [_connect_to_server] asks for at most one server, opens at most one
    session and makes at most one handshake; after a server that could not be
    started it opens no session and makes no handshake, and after a session
    that could not be opened it makes no handshake.  It closes nothing and
    leaves the class slot as it was. *)
Theorem connect_stops_at_the_first_failure (self : Mcp_client.MCPClient) (s : state) :
  exists evs : list event,
    st_trace (snd (Mcp_client._connect_to_server self s)) = st_trace s ++ evs
    /\ class_client_session (snd (Mcp_client._connect_to_server self s))
       = class_client_session s
    /\ closings evs = []
    /\ (length (spawn_attempts evs) <= 1)%nat
    /\ (length (sessions_opened evs) <= 1)%nat
    /\ (length (handshakes evs) <= 1)%nat
    /\ (forall server e,
          In (EvSpawn server (Raised e)) evs ->
          sessions_opened evs = [] /\ handshakes evs = [])
    /\ (forall e, In (EvSession (Raised e)) evs -> handshakes evs = []).
Proof. exact (connect_events self s). Qed.

(** X10: [__aenter__] returns the client with the session of
    [_connect_to_server] in the class slot, where [self.client_session] reads
    it back; when the connection fails, [__aenter__] raises what the
    connection raised and the slot is as it was. *)
Theorem aenter_publishes_the_session (self : Mcp_client.MCPClient) (s : state) :
  match Mcp_client._connect_to_server self s with
  | (Returned session, s1) =>
      Mcp_client.__aenter__ self s = (Returned self, connected s1 session)
      /\ Mcp_client.get_client_session (connected s1 session)
         = (Returned session, connected s1 session)
  | (Raised e, s1) =>
      Mcp_client.__aenter__ self s = (Raised e, s1)
      /\ class_client_session s1 = class_client_session s
  end.
Proof.
  destruct (connect_events self s) as (evs & _ & Hslot & _).
  unfold Mcp_client.__aenter__, bind.
  destruct (Mcp_client._connect_to_server self s) as [[session|e] s1].
  - split; reflexivity.
  - split; [reflexivity|exact Hslot].
Qed.

(** ** The listing *)

Lemma print_items_run (items : list (string * option string)) :
  forall s,
    Mcp_client.print_items items s
    = (Returned tt,
       {| st_world := st_world s;
          st_trace :=
            st_trace s
            ++ map EvPrint
                 (map (fun item =>
                         (" > " ++ fst item ++ " - "
                          ++ or_else (snd item) "No description")%string) items);
          class_client_session := class_client_session s |}).
Proof.
  induction items as [|[item_name item_description] items IH]; intros s.
  - simpl. rewrite app_nil_r. destruct s; reflexivity.
  - simpl. unfold bind, print. rewrite IH.
    cbn [st_world st_trace class_client_session record_event fst snd].
    rewrite <- app_assoc. reflexivity.
Qed.

Lemma print_run (line : string) (s : state) :
  print line s = (Returned tt, printing [line] s).
Proof. reflexivity. Qed.

Lemma printing_app (a b : list string) (s : state) :
  printing b (printing a s) = printing (a ++ b) s.
Proof.
  unfold printing. cbn [st_world st_trace class_client_session].
  now rewrite map_app, app_assoc.
Qed.

(** [_list_section] prints its report on the state the listing left. *)
Lemma list_section_run (section : string)
    (list_method : M (list (string * option string))) (s : state) :
  Mcp_client._list_section section list_method s
  = (Returned tt,
     printing (section_report section (fst (list_method s))) (snd (list_method s))).
Proof.
  unfold Mcp_client._list_section, try_except, bind.
  destruct (list_method s) as [[items|e] s1]; cbn [fst snd section_report].
  - destruct items as [|item items]; [reflexivity|].
    unfold print at 1 2. rewrite print_items_run.
    unfold printing. cbn [st_world st_trace class_client_session record_event section_lines map app].
    rewrite <- !app_assoc. reflexivity.
  - reflexivity.
Qed.

(** X11: [_list_section] never raises.  It prints the title and the count,
    a rule and one line per item; or that none is available, when the section
    is empty; or one line with the error, when the section could not be
    listed.  It leaves the world as the listing left it. *)
Theorem list_section_reports (section : string)
    (list_method : M (list (string * option string))) (s : state) :
  exists s',
    Mcp_client._list_section section list_method s = (Returned tt, s')
    /\ st_world s' = st_world (snd (list_method s))
    /\ class_client_session s' = class_client_session (snd (list_method s))
    /\ st_trace s'
       = st_trace (snd (list_method s))
         ++ map EvPrint (section_report section (fst (list_method s))).
Proof.
  eexists. split; [apply list_section_run|]. repeat split.
Qed.

(** A listing, with its items by name and description. *)
Lemma listing_run {A} (f : world -> outcome (list A) * world) (ev : outcome (list A) -> event)
    (item : A -> string * option string) (s : state) :
  bind (call f ev) (fun r => ret (map item r)) s
  = (items_of item (fst (f (st_world s))),
     record_event (ev (fst (f (st_world s)))) s (snd (f (st_world s)))).
Proof.
  unfold bind, call, ret, items_of.
  destruct (f (st_world s)) as [[listed|e] w]; reflexivity.
Qed.

(** [list_all_members], once the class slot holds a session. *)
Lemma list_all_members_run (self : Mcp_client.MCPClient) (s : state) session :
  class_client_session s = Some session ->
  let s0 := printing members_header s in
  let out1 := fst (ClientSession_list_tools session (st_world s0)) in
  let s1 := printing (section_report "tools" (items_of Mcp_client.tool_item out1))
              (record_event (EvListTools out1) s0
                 (snd (ClientSession_list_tools session (st_world s0)))) in
  let out2 := fst (ClientSession_list_prompts session (st_world s1)) in
  let s2 := printing (section_report "prompts" (items_of Mcp_client.member_item out2))
              (record_event (EvListPrompts out2) s1
                 (snd (ClientSession_list_prompts session (st_world s1)))) in
  let out3 := fst (ClientSession_list_resources session (st_world s2)) in
  let s3 := printing (section_report "resources" (items_of Mcp_client.member_item out3))
              (record_event (EvListResources out3) s2
                 (snd (ClientSession_list_resources session (st_world s2)))) in
  Mcp_client.list_all_members self s = (Returned tt, printing [members_footer] s3).
Proof.
  intros Hslot. cbv zeta. unfold Mcp_client.list_all_members.
  unfold bind at 1. rewrite print_run. unfold bind at 1. rewrite print_run.
  rewrite printing_app. change (["MCP Server Members"] ++ [Mcp_client.repeat_string "=" 50])
    with members_header.
  unfold bind at 1. unfold Mcp_client.get_client_session.
  cbn [class_client_session printing]. rewrite Hslot.
  unfold bind at 1. rewrite list_section_run, listing_run. cbn [fst snd].
  unfold bind at 1. rewrite list_section_run, listing_run. cbn [fst snd].
  unfold bind at 1. rewrite list_section_run, listing_run. cbn [fst snd].
  rewrite print_run. reflexivity.
Qed.

(** X12: with a session in the class slot, [list_all_members] never raises:
    it prints the heading, lists the tools, the prompts and the resources,
    once each and in this order, reports every section whether it could be
    listed or not, and prints the closing rule.  Without a session it raises
    [AttributeError] after the heading, with nothing listed. *)
Theorem list_all_members_lists_every_section (self : Mcp_client.MCPClient) (s : state) :
  match class_client_session s with
  | Some session =>
      exists out1 out2 out3 s',
        Mcp_client.list_all_members self s = (Returned tt, s')
        /\ class_client_session s' = Some session
        /\ st_trace s'
           = st_trace s
             ++ map EvPrint members_header
             ++ [EvListTools out1]
             ++ map EvPrint (section_report "tools" (items_of Mcp_client.tool_item out1))
             ++ [EvListPrompts out2]
             ++ map EvPrint (section_report "prompts" (items_of Mcp_client.member_item out2))
             ++ [EvListResources out3]
             ++ map EvPrint
                  (section_report "resources" (items_of Mcp_client.member_item out3))
             ++ [EvPrint members_footer]
  | None =>
      Mcp_client.list_all_members self s
      = (Raised (Exn AttributeError "'MCPClient' object has no attribute 'client_session'"),
         printing members_header s)
  end.
Proof.
  destruct (class_client_session s) as [session|] eqn:Hslot.
  - pose proof (list_all_members_run self s session Hslot) as Hrun. cbv zeta in Hrun.
    do 3 eexists. eexists. split; [exact Hrun|].
    cbn [class_client_session st_trace printing record_event]. split; [exact Hslot|].
    rewrite <- !app_assoc. reflexivity.
  - unfold Mcp_client.list_all_members.
    unfold bind at 1. rewrite print_run. unfold bind at 1. rewrite print_run.
    rewrite printing_app. unfold bind at 1. unfold Mcp_client.get_client_session.
    cbn [class_client_session printing]. rewrite Hslot. reflexivity.
Qed.

(** X13: [MCPClient.run_chat], with a session in the class slot.  Without a
    credential it prints the configuration error and returns; the chat loop
    is not entered.  With one, it enters the chat loop once, with that
    session and that credential; a [RuntimeError] of the loop is printed and
    [run_chat] returns, any other exception of the loop is raised. *)
Theorem run_chat_needs_the_credential (self : Mcp_client.MCPClient) (s : state) session :
  class_client_session s = Some session ->
  match os_getenv "OPENAI_API_KEY" (st_world s) with
  | Some (String c k) =>
      let out := fst (chat_run_chat session {| api_key := String c k |} (st_world s)) in
      let s1 := record_event (EvChat out) s
                  (snd (chat_run_chat session {| api_key := String c k |} (st_world s))) in
      Mcp_client.run_chat self s
      = match out with
        | Returned u => (Returned u, s1)
        | Raised e =>
            if is_RuntimeError e then (Returned tt, printing [str_exn e] s1)
            else (Raised e, s1)
        end
  | _ =>
      Mcp_client.run_chat self s
      = (Returned tt, printing ["Error: OPENAI_API_KEY environment variable not set"] s)
  end.
Proof.
  intros Hslot.
  unfold Mcp_client.run_chat, try_except_RuntimeError, Mcp_client.get_client_session,
    Handlers.__init__, bind, call.
  cbv beta. rewrite Hslot.
  destruct (os_getenv "OPENAI_API_KEY" (st_world s)) as [[|c k]|]; try reflexivity.
  cbv zeta. cbn [Handlers.client_session Handlers.openai].
  destruct (chat_run_chat session {| api_key := String c k |} (st_world s)) as [[u|e] w];
    cbn [fst snd]; [reflexivity|].
  destruct (is_RuntimeError e); reflexivity.
Qed.

(** ** The entry point *)




(** [main], when the script is not there, and when the connection fails. *)
Lemma main_missing (args : Namespace) (s : state) :
  Path_exists (ns_server_path args) (st_world s) = false ->
  Main.main args s
  = (Returned tt,
     printing [("Error: Server script '" ++ ns_server_path args ++ "' not found")%string]
       (record_event (EvExists (ns_server_path args) false) s (st_world s))).
Proof.
  intros Hmissing. unfold Main.main, Mcp_client.exists_. unfold bind at 1.
  rewrite Hmissing. reflexivity.
Qed.

Lemma main_connect_fails (args : Namespace) (s : state) e s1 :
  Path_exists (ns_server_path args) (st_world s) = true ->
  Mcp_client._connect_to_server {| Mcp_client.server_path := ns_server_path args |}
    (record_event (EvExists (ns_server_path args) true) s (st_world s))
  = (Raised e, s1) ->
  Main.main args s = (Returned tt, printing [str_exn e] s1).
Proof.
  intros Hfound Hconnect.
  destruct (connect_raises_runtime_error _ _ _ _ Hconnect) as [Hrt _].
  unfold Main.main, Mcp_client.exists_. unfold bind at 1. rewrite Hfound. cbn [negb].
  unfold try_except_RuntimeError, Mcp_client.async_with, Mcp_client.__aenter__.
  unfold bind at 1. unfold bind at 1. rewrite Hconnect, Hrt. reflexivity.
Qed.

(** X15: when the script is not there, or when the connection fails, [main]
    never closes the exit stack, not even after a connection that had
    started the server before it failed. *)
Theorem failed_connection_is_never_closed (args : Namespace) (s : state) :
  Path_exists (ns_server_path args) (st_world s) = false
  \/ (exists e s1,
        Mcp_client._connect_to_server {| Mcp_client.server_path := ns_server_path args |}
          (record_event (EvExists (ns_server_path args) true) s (st_world s))
        = (Raised e, s1)) ->
  exists evs,
    st_trace (snd (Main.main args s)) = st_trace s ++ evs
    /\ closings evs = []
    /\ fst (Main.main args s) = Returned tt.
Proof.
  assert (Hmissing :
    Path_exists (ns_server_path args) (st_world s) = false ->
    exists evs,
      st_trace (snd (Main.main args s)) = st_trace s ++ evs
      /\ closings evs = []
      /\ fst (Main.main args s) = Returned tt).
  { intros H. rewrite (main_missing args s H).
    exists [EvExists (ns_server_path args) false;
            EvPrint ("Error: Server script '" ++ ns_server_path args ++ "' not found")%string].
    cbn [fst snd st_trace printing record_event map]. rewrite <- app_assoc.
    repeat split. }
  intros [H | (e & s1 & Hconnect)]; [exact (Hmissing H)|].
  destruct (Path_exists (ns_server_path args) (st_world s)) eqn:Hfound;
    [|exact (Hmissing eq_refl)].
  destruct (connect_events {| Mcp_client.server_path := ns_server_path args |}
              (record_event (EvExists (ns_server_path args) true) s (st_world s)))
    as (evs & Htr & _ & Hclosed & _).
  rewrite Hconnect in Htr. cbn [snd st_trace record_event] in Htr.
  rewrite (main_connect_fails args s e s1 Hfound Hconnect).
  exists ([EvExists (ns_server_path args) true] ++ evs ++ [EvPrint (str_exn e)]).
  cbn [fst snd st_trace printing map]. rewrite Htr, <- !app_assoc.
  rewrite !closings_app, Hclosed. repeat split.
Qed.

(** ** The chat loop *)

Section ChatLoop.
Variable input : string -> world -> outcome string * world.
Variable strip : string -> string.
Variable lower : string -> string.
Variable process_query : string -> M string.

(** A pass through the body of the loop never raises. *)
Lemma iteration_returns (s : state) :
  exists c s', Chat.iteration input strip lower process_query s = (Returned c, s').
Proof.
  unfold Chat.iteration, try_except, bind, Chat.read, print, ret.
  destruct (input _ (st_world s)) as [[line|e] w]; [|eauto].
  destruct (strip line) as [|c q]; [eauto|].
  destruct (lower (String c q) =? "quit")%string; [eauto|].
  destruct (process_query (String c q) _) as [[answer|e] s2]; eauto.
Qed.

Lemma loop_returns (fuel : nat) :
  forall s, exists r s', Chat.loop input strip lower process_query fuel s = (Returned r, s').
Proof.
  induction fuel as [|fuel IH]; intros s.
  - exists None, s. reflexivity.
  - cbn [Chat.loop]. unfold bind.
    destruct (iteration_returns s) as (c & s' & Hstep).
    rewrite Hstep. destruct c; [apply IH|]. exists (Some tt), s'. reflexivity.
Qed.

(** X16: [run_chat] never raises, whatever [input] and [process_query] do:
    after any number of passes through its loop it has returned or is still
    going. *)
Theorem chat_never_raises (fuel : nat) (s : state) :
  exists r s', Chat.run_chat input strip lower process_query fuel s = (Returned r, s').
Proof.
  unfold Chat.run_chat. unfold bind at 1. rewrite print_run.
  unfold bind at 1. rewrite print_run. unfold bind.
  destruct (loop_returns fuel (printing ["Type your queries or 'quit' to exit."]
                                 (printing [(newline ++ "MCP Client's Chat Started!")%string] s)))
    as (r & s' & Hloop).
  rewrite Hloop. destruct r as [u|].
  - rewrite print_run. eexists. eexists. reflexivity.
  - eexists. eexists. reflexivity.
Qed.

(** X17: a line that is [quit] once stripped and lowered ends the chat:
    [run_chat] prints its two opening lines and its farewell and returns,
    without a query processed. *)
Theorem quit_ends_the_chat (fuel : nat) (s : state) line w :
  input (newline ++ "You: ") (st_world s) = (Returned line, w) ->
  strip line <> "" ->
  lower (strip line) = "quit" ->
  Chat.run_chat input strip lower process_query (S fuel) s
  = (Returned (Some tt),
     printing [(newline ++ "MCP Client's Chat Started!")%string;
               "Type your queries or 'quit' to exit.";
               (newline ++ "Goodbye!")%string] (after_input s w)).
Proof.
  intros Hinput Hquery Hquit.
  unfold Chat.run_chat. unfold bind at 1. rewrite print_run.
  unfold bind at 1. rewrite print_run. rewrite printing_app.
  unfold bind at 1. cbn [Chat.loop]. unfold bind at 1.
  unfold Chat.iteration, try_except, bind, Chat.read, ret.
  cbn [st_world printing]. rewrite Hinput.
  destruct (strip line) as [|c q]; [contradiction|]. rewrite Hquit, String.eqb_refl.
  cbv beta iota. rewrite print_run. unfold printing, after_input.
  cbn [st_world st_trace class_client_session app map]. rewrite <- app_assoc. reflexivity.
Qed.

(** X18: a line that is empty once stripped is passed over: nothing is
    printed, no query is processed, and the loop reads on. *)
Theorem blank_line_is_skipped (fuel : nat) (s : state) line w :
  input (newline ++ "You: ") (st_world s) = (Returned line, w) ->
  strip line = "" ->
  Chat.loop input strip lower process_query (S fuel) s
  = Chat.loop input strip lower process_query fuel (after_input s w).
Proof.
  intros Hinput Hblank. cbn [Chat.loop]. unfold bind at 1.
  unfold Chat.iteration, try_except, bind, Chat.read, ret.
  rewrite Hinput, Hblank. reflexivity.
Qed.

(** X19: any other line is processed, stripped, as one query: its answer is
    printed after a line feed or, when [process_query] raises, the line
    ["Error: ..."] is; either way the loop reads on. *)
Theorem query_is_processed_once (fuel : nat) (s : state) line w :
  input (newline ++ "You: ") (st_world s) = (Returned line, w) ->
  strip line <> "" ->
  lower (strip line) <> "quit" ->
  Chat.loop input strip lower process_query (S fuel) s
  = Chat.loop input strip lower process_query fuel
      (match process_query (strip line) (after_input s w) with
       | (Returned answer, s2) => printing [(newline ++ answer)%string] s2
       | (Raised e, s2) => printing [(newline ++ "Error: " ++ str_exn e)%string] s2
       end).
Proof.
  intros Hinput Hquery Hother. cbn [Chat.loop]. unfold bind at 1.
  unfold Chat.iteration, try_except, bind, Chat.read, ret.
  rewrite Hinput. fold (after_input s w).
  destruct (strip line) as [|c q]; [contradiction|].
  destruct (String.eqb_spec (lower (String c q)) "quit") as [Heq|_]; [contradiction|].
  destruct (process_query (String c q) (after_input s w)) as [[answer|e] s2];
    rewrite print_run; reflexivity.
Qed.

(** X20: once [input] fails on every call, as it does at the end of the
    standard input, the loop never ends: every pass prints one error line and
    reads again. *)
Theorem closed_input_never_ends (closed : world -> Prop) :
  (forall w, closed w ->
             exists e w', input (newline ++ "You: ") w = (Raised e, w') /\ closed w') ->
  forall fuel s,
    closed (st_world s) ->
    exists lines s',
      Chat.loop input strip lower process_query fuel s = (Returned None, s')
      /\ st_trace s' = st_trace s ++ map EvPrint lines
      /\ length lines = fuel
      /\ Forall (starts_with (newline ++ "Error: ")) lines.
Proof.
  intros Hclosed fuel. induction fuel as [|fuel IH]; intros s Hs.
  - exists [], s. cbn. rewrite app_nil_r. repeat split. constructor.
  - destruct (Hclosed _ Hs) as (e & w' & Hinput & Hw').
    cbn [Chat.loop]. unfold bind at 1.
    unfold Chat.iteration, try_except, bind, Chat.read, ret.
    rewrite Hinput. rewrite print_run.
    destruct (IH (printing [(newline ++ "Error: " ++ str_exn e)%string] (after_input s w')) Hw')
      as (lines & s' & Hloop & Htr & Hlen & Hall).
    exists ((newline ++ "Error: " ++ str_exn e)%string :: lines), s'.
    split; [exact Hloop|]. split; [|split].
    + rewrite Htr. cbn [st_trace printing after_input map]. now rewrite <- app_assoc.
    + cbn. now rewrite Hlen.
    + constructor; [|exact Hall]. exists (str_exn e). reflexivity.
Qed.

End ChatLoop.

End MoreProperties.

(** * The properties on the scripted runtime *)

#[local] Existing Instance scripted.

(** The echo round of the scripted runtime: two calls to the engine, one to
    the tool, one log segment. *)
Lemma tool_round_of_echo :
  (msg_tool_calls (request_message [echo_hi]) = Some [echo_hi]
   /\ [echo_hi] <> []
   /\ Forall (decodable (R := scripted)) [echo_hi])
  /\ exists (xs : list executed) (out2 : outcome ChatCompletion)
            (s' : @state scripted) (evs : list (@event scripted)),
       Handlers.process_query (R := scripted) a_handler "echo hi" echo_round
       = (final_answer
            (Handlers.append_if_present [] (msg_content (request_message [echo_hi]))
             ++ map executed_log xs) out2, s')
       /\ st_trace s' = st_trace echo_round ++ evs
       /\ map executed_call xs = [echo_hi]
       /\ length (map executed_log xs) = length [echo_hi]
       /\ Forall (fun x => decode_arguments (fst (fst x)) = Returned (snd (fst x))) xs
       /\ evs = [EvListTools (Returned [echo_tool]);
                 EvCreate (first_request "echo hi" [echo_tool])
                   (Returned (completion (request_message [echo_hi])))]
                ++ map executed_event xs
                ++ [EvCreate (second_request "echo hi" (request_message [echo_hi]) [echo_hi]
                                (map executed_turn xs)) out2]
       /\ length (engine_calls evs) = 2%nat
       /\ map (fun c => tools (fst c)) (engine_calls evs)
          = [Some (map (Handlers.format_tool) [echo_tool]); None]
       /\ length (tool_calls_made evs) = length [echo_hi]
       /\ map (fun c => fst (fst c)) (tool_calls_made evs)
          = map (fun tool_call => fn_name (function tool_call)) [echo_hi]
       /\ map (fun c => Returned (snd (fst c))) (tool_calls_made evs)
          = map decode_arguments [echo_hi]
       /\ Forall (fun x =>
                    executed_log x
                    = used_log (fn_name (function (executed_call x))) (snd (fst x))
                    \/ exists e, executed_log x = error_log e) xs
       /\ (forall response2 m2 rest2,
             out2 = Returned response2 ->
             choices response2 = m2 :: rest2 ->
             fst (Handlers.process_query a_handler "echo hi" echo_round)
             = Returned ("Assistant: "
                         ++ join_lines
                              (Handlers.append_if_present
                                 (Handlers.append_if_present []
                                    (msg_content (request_message [echo_hi]))
                                  ++ map executed_log xs)
                                 (msg_content m2)))%string).
Proof.
  assert (Hdec : Forall (decodable (R := scripted)) [echo_hi]).
  { repeat constructor. eexists. reflexivity. }
  split.
  - split; [reflexivity|]. split; [discriminate|exact Hdec].
  - eapply (@process_query_tool_round scripted a_handler "echo hi" echo_round).
    + reflexivity.
    + reflexivity.
    + reflexivity.
    + reflexivity.
    + discriminate.
    + exact Hdec.
Defined.

(** C1, as stated, fails on arguments that are no JSON: the first response
    requests one invocation, and the run has called the engine once and the
    tool not at all when the decoder's exception leaves [process_query]. *)
Lemma tool_round_breaks_on_malformed_arguments :
  engine_calls (st_trace (snd malformed_run))
  = [(first_request "echo hi" [echo_tool], Returned (completion (request_message [echo_oops])))]
  /\ msg_tool_calls (request_message [echo_oops]) = Some [echo_oops]
  /\ length (engine_calls (st_trace (snd malformed_run))) <> 2%nat
  /\ length (tool_calls_made (st_trace (snd malformed_run))) <> length [echo_oops]
  /\ fst malformed_run = Raised oops_error.
Proof.
  repeat split; try reflexivity; vm_compute; discriminate.
Qed.

(** The plain answer of the scripted runtime. *)
Lemma plain_answer_is_prefixed :
  (msg_tool_calls (text_message "You have an echo tool.") = None
   \/ msg_tool_calls (text_message "You have an echo tool.") = Some [])
  /\ exists (s' : state) (evs : list event),
       Handlers.process_query a_handler "What tools are available?" plain_answer
       = (Returned ("Assistant: "
                    ++ or_else (msg_content (text_message "You have an echo tool.")) "")%string,
          s')
       /\ st_trace s' = st_trace plain_answer ++ evs
       /\ length (engine_calls evs) = 1%nat
       /\ tool_calls_made evs = [].
Proof.
  split; [left; reflexivity|].
  eapply (@process_query_without_tools scripted a_handler "What tools are available?"
            plain_answer).
  - reflexivity.
  - reflexivity.
  - reflexivity.
  - left. reflexivity.
Defined.

(** C2, as stated, fails: the first response has the text
    [You have an echo tool.] and requests no invocation, and the answer is not
    that text but the text after ["Assistant: "]. *)
Lemma plain_answer_is_not_the_text :
  engine_calls (st_trace (snd plain_run))
  = [(first_request "What tools are available?" [echo_tool],
      Returned (completion (text_message "You have an echo tool.")))]
  /\ tool_calls_made (st_trace (snd plain_run)) = []
  /\ fst plain_run = Returned "Assistant: You have an echo tool."
  /\ fst plain_run <> Returned "You have an echo tool.".
Proof.
  repeat split; try reflexivity. vm_compute. discriminate.
Qed.

(** An invocation without arguments is executed with the empty document. *)
Lemma bare_invocation_is_executed :
  (truthy (fn_arguments (function echo_bare)) = false
   /\ json_loads "{}" = Returned (JDict []))
  /\ (exists out w,
       ClientSession_call_tool (Handlers.client_session a_handler)
         (fn_name (function echo_bare)) (JDict []) (st_world tool_ready) = (out, w)
       /\ Handlers._execute_tool a_handler echo_bare tool_ready
          = (Returned {| Handlers.log := invocation_log echo_bare (JDict []) out;
                         Handlers.tool_turn := invocation_turn echo_bare (JDict []) out |},
             record_event (invocation_event echo_bare (JDict []) out) tool_ready w))
  /\ decode_arguments echo_oops = Raised oops_error
  /\ Handlers._execute_tool a_handler echo_oops tool_ready = (Raised oops_error, tool_ready).
Proof.
  split; [split; reflexivity|]. split; [|split; [reflexivity|]].
  - apply (proj1 (@execute_tool_arguments scripted a_handler echo_bare tool_ready));
      reflexivity.
  - apply (proj2 (@execute_tool_arguments scripted a_handler echo_oops tool_ready)).
    reflexivity.
Defined.

(** C3, as stated, fails: the arguments [{oops] do not decode, and the
    invocation is not executed with an empty document: no tool is called, and
    the decoder's exception leaves [_execute_tool] and [process_query]. *)
Lemma malformed_arguments_are_raised :
  decode_arguments echo_oops = Raised oops_error
  /\ Handlers._execute_tool a_handler echo_oops tool_ready = (Raised oops_error, tool_ready)
  /\ tool_calls_made (st_trace (snd (Handlers._execute_tool a_handler echo_oops tool_ready))) = []
  /\ msg_tool_calls (request_message [echo_oops]) = Some [echo_oops]
  /\ engine_calls (st_trace (snd malformed_run))
     = [(first_request "echo hi" [echo_tool],
         Returned (completion (request_message [echo_oops])))]
  /\ tool_calls_made (st_trace (snd malformed_run)) = []
  /\ fst malformed_run = Raised oops_error.
Proof.
  repeat split; reflexivity.
Qed.

(** A failed tool call followed by a successful one, on the scripted
    runtime. *)
Lemma failed_call_is_answered :
  (msg_tool_calls (request_message [echo_hi; echo_bare]) = Some [echo_hi; echo_bare]
   /\ [echo_hi; echo_bare] <> []
   /\ Forall decodable [echo_hi; echo_bare])
  /\ exists (xs : list executed) (out2 : outcome ChatCompletion) (s' : state),
       let result_parts :=
         Handlers.append_if_present []
           (msg_content (request_message [echo_hi; echo_bare]))
         ++ map executed_log xs in
       Handlers.process_query a_handler "echo hi" failure_then_success
       = (final_answer result_parts out2, s')
       /\ map executed_call xs = [echo_hi; echo_bare]
       /\ st_trace s'
          = st_trace failure_then_success
            ++ [EvListTools (Returned [echo_tool]);
                EvCreate (first_request "echo hi" [echo_tool])
                  (Returned (completion (request_message [echo_hi; echo_bare])))]
            ++ map executed_event xs
            ++ [EvCreate (second_request "echo hi" (request_message [echo_hi; echo_bare])
                            [echo_hi; echo_bare] (map executed_turn xs)) out2]
       /\ (forall i tool_call tool_args out e,
             nth_error xs i = Some (tool_call, tool_args, out) ->
             execution_failure out = Some e ->
             nth_error (map executed_log xs) i = Some ("[Error: " ++ str_exn e ++ "]")%string
             /\ nth_error (map executed_turn xs) i
                = Some (tool_message (id tool_call) ("Error: " ++ str_exn e)))
       /\ (forall response2 m2 rest2,
             out2 = Returned response2 ->
             choices response2 = m2 :: rest2 ->
             fst (Handlers.process_query a_handler "echo hi" failure_then_success)
             = Returned ("Assistant: "
                         ++ join_lines (Handlers.append_if_present result_parts
                                          (msg_content m2)))%string).
Proof.
  assert (Hdec : Forall decodable [echo_hi; echo_bare]).
  { repeat constructor; eexists; reflexivity. }
  split.
  - split; [reflexivity|]. split; [discriminate|exact Hdec].
  - eapply (@tool_failure_is_recovered scripted a_handler "echo hi" failure_then_success).
    + reflexivity.
    + reflexivity.
    + reflexivity.
    + reflexivity.
    + discriminate.
    + exact Hdec.
Defined.

(** C4, as stated, fails: the first invocation's tool call raises, which is
    recovered, but the second invocation has arguments that are no JSON:
    [process_query] raises, the second invocation is not executed and the
    engine is not called a second time. *)
Lemma failed_call_then_malformed_arguments :
  msg_tool_calls (request_message [echo_hi; echo_oops]) = Some [echo_hi; echo_oops]
  /\ tool_calls_made (st_trace (snd failure_then_malformed_run))
     = [("echo", JDict [("text", JStr "hi")], Raised server_down)]
  /\ engine_calls (st_trace (snd failure_then_malformed_run))
     = [(first_request "echo hi" [echo_tool],
         Returned (completion (request_message [echo_hi; echo_oops])))]
  /\ fst failure_then_malformed_run = Raised oops_error
  /\ forall answer, fst failure_then_malformed_run <> Returned answer.
Proof.
  repeat split; try reflexivity. intros answer. vm_compute. discriminate.
Qed.

(** A script that is not there, on the scripted runtime. *)
Lemma missing_script_is_not_started :
  Path_exists (Path_resolve (Mcp_client.server_path lost_client) (st_world spawn_fails))
    (st_world spawn_fails) = false
  /\ Mcp_client._connect_to_server lost_client spawn_fails
     = (Raised (runtime_error
                  ("Server script not found: "
                   ++ Path_resolve (Mcp_client.server_path lost_client) (st_world spawn_fails))),
        record_event
          (EvExists (Path_resolve (Mcp_client.server_path lost_client) (st_world spawn_fails))
             false)
          spawn_fails (st_world spawn_fails))
  /\ spawn_attempts (st_trace (snd (Mcp_client._connect_to_server lost_client spawn_fails)))
     = spawn_attempts (st_trace spawn_fails).
Proof.
  split; [reflexivity|].
  apply (proj2 (@connect_checks_the_script_first scripted lost_client spawn_fails)).
  reflexivity.
Defined.

(** An interpreter that cannot be started, on the scripted runtime. *)
Lemma spawn_failure_is_wrapped :
  (st_trace (snd (Mcp_client._connect_to_server a_client spawn_fails))
   = st_trace spawn_fails
     ++ [EvExists "server.py" true; EvSpawn (server_for "server.py") (Raised no_interpreter)]
   /\ raised_while_connecting no_interpreter
        [EvExists "server.py" true; EvSpawn (server_for "server.py") (Raised no_interpreter)])
  /\ let wrapped :=
       runtime_error_from ("Failed to connect to server: " ++ str_exn no_interpreter)
         no_interpreter in
     fst (Mcp_client._connect_to_server a_client spawn_fails) = Raised wrapped
     /\ exn_cause wrapped = Some no_interpreter
     /\ is_RuntimeError wrapped = true
     /\ fst (Mcp_client._connect_to_server a_client spawn_fails) <> Raised no_interpreter.
Proof.
  assert (Hraised :
    raised_while_connecting no_interpreter
      [EvExists "server.py" true; EvSpawn (server_for "server.py") (Raised no_interpreter)]).
  { left. exists (server_for "server.py"). right. left. reflexivity. }
  split.
  - split; [reflexivity|exact Hraised].
  - apply (@connect_wraps_failures scripted a_client spawn_fails
             [EvExists "server.py" true;
              EvSpawn (server_for "server.py") (Raised no_interpreter)] no_interpreter).
    + reflexivity.
    + exact Hraised.
Defined.

(** No credential, on the scripted runtime. *)
Lemma construction_without_credential :
  truthy (os_getenv "OPENAI_API_KEY" (st_world no_credential)) = false
  /\ Handlers.__init__ 7%nat no_credential = (Raised missing_credential, no_credential).
Proof.
  split; [reflexivity|].
  apply (proj1 (@credential_is_checked_at_construction scripted 7%nat no_credential)).
  reflexivity.
Defined.

(** The second call fails, on the scripted runtime. *)
Lemma engine_failure_after_tools :
  (st_trace (snd (Handlers.process_query a_handler "echo hi" second_call_fails))
   = st_trace second_call_fails
     ++ st_trace (snd (Handlers.process_query a_handler "echo hi" second_call_fails))
   /\ engine_calls (st_trace (snd (Handlers.process_query a_handler "echo hi" second_call_fails)))
      = [(first_request "echo hi" [echo_tool],
          Returned (completion (request_message [echo_hi])));
         (second_request "echo hi" (request_message [echo_hi]) [echo_hi]
            [tool_message "call_1" "hi"],
          Raised engine_down)])
  /\ fst (Handlers.process_query a_handler "echo hi" second_call_fails) = Raised engine_down
  /\ forall answer,
       fst (Handlers.process_query a_handler "echo hi" second_call_fails) <> Returned answer.
Proof.
  split; [split; reflexivity|].
  apply (@second_call_failure_is_raised scripted a_handler "echo hi" second_call_fails
           (st_trace (snd (Handlers.process_query a_handler "echo hi" second_call_fails)))
           (first_request "echo hi" [echo_tool],
            Returned (completion (request_message [echo_hi])))
           (second_request "echo hi" (request_message [echo_hi]) [echo_hi]
              [tool_message "call_1" "hi"])
           engine_down); reflexivity.
Defined.

(** The catalog of the scripted runtime. *)
Lemma echo_catalog_is_adapted :
  ClientSession_list_tools (Handlers.client_session a_handler) (st_world plain_answer)
  = (Returned [echo_tool],
     {| environ := [("OPENAI_API_KEY", "sk-test")]; files := ["server.py"];
        replies := [Completed (says "You have an echo tool.")] |})
  /\ Handlers._get_tools a_handler plain_answer
     = (Returned (map Handlers.format_tool [echo_tool]),
        record_event (EvListTools (Returned [echo_tool])) plain_answer
          {| environ := [("OPENAI_API_KEY", "sk-test")]; files := ["server.py"];
             replies := [Completed (says "You have an echo tool.")] |}).
Proof.
  split; [reflexivity|].
  apply (proj1 (@get_tools_adapts_catalog scripted a_handler plain_answer [echo_tool]
                  {| environ := [("OPENAI_API_KEY", "sk-test")]; files := ["server.py"];
                     replies := [Completed (says "You have an echo tool.")] |}
                  eq_refl)).
Defined.

(** A script that is not there, from the entry point. *)
Lemma missing_script_is_reported :
  Path_exists "missing.py" (st_world spawn_fails) = false
  /\ Main.cli_main (members_of "missing.py") spawn_fails
     = (0%Z,
        record_event (EvPrint ("Error: Server script '" ++ "missing.py" ++ "' not found"))
          (record_event (EvExists "missing.py" false) spawn_fails (st_world spawn_fails))
          (st_world spawn_fails))
  /\ Path_exists "server.py" (st_world handshake_fails) = true
  /\ fst (Mcp_client._connect_to_server a_client
            (record_event (EvExists "server.py" true) handshake_fails
               (st_world handshake_fails)))
     = Raised (connect_failed server_down)
  /\ fst (Main.cli_main (members_of "server.py") handshake_fails) = 0%Z
  /\ printed (st_trace (snd (Main.cli_main (members_of "server.py") handshake_fails)))
     = [str_exn (connect_failed server_down)].
Proof.
  split; [reflexivity|]. split; [|split; [reflexivity|split; [reflexivity|]]].
  - apply (proj1 (@cli_reports_and_exits_zero scripted (members_of "missing.py") spawn_fails)).
    reflexivity.
  - destruct (proj2 (@cli_reports_and_exits_zero scripted (members_of "server.py")
                       handshake_fails)
                (connect_failed server_down)
                (snd (Mcp_client._connect_to_server a_client
                        (record_event (EvExists "server.py" true) handshake_fails
                           (st_world handshake_fails))))
                eq_refl eq_refl) as [Hexit _].
    rewrite Hexit. split; reflexivity.
Defined.

(** C10, as stated, fails: the script is not there, or the server cannot be
    started; one line is printed and the exit status is 0. *)
Lemma failures_exit_with_status_zero :
  Path_exists "missing.py" (st_world spawn_fails) = false
  /\ printed (st_trace (snd (Main.cli_main (members_of "missing.py") spawn_fails)))
     = ["Error: Server script 'missing.py' not found"]
  /\ fst (Main.cli_main (members_of "missing.py") spawn_fails) = 0%Z
  /\ fst (Mcp_client._connect_to_server a_client spawn_fails)
     = Raised (connect_failed no_interpreter)
  /\ printed (st_trace (snd (Main.cli_main (members_of "server.py") spawn_fails)))
     = ["Failed to connect to server: [Errno 2] No such file or directory"]
  /\ fst (Main.cli_main (members_of "server.py") spawn_fails) = 0%Z.
Proof.
  repeat split; reflexivity.
Qed.

(** The scenario of the echo tool: the log segment, then the final text. *)
Example echo_round_answer :
  fst (Handlers.process_query a_handler "echo hi" echo_round)
  = Returned ("Assistant: [Used echo({'text': 'hi'})]" ++ newline ++ "Done.")%string.
Proof. reflexivity. Qed.

(** The scenario of the failed call: the error in brackets, the next log
    segment, the final text. *)
Example failed_call_answer :
  fst (Handlers.process_query a_handler "echo hi" failure_then_success)
  = Returned ("Assistant: [Error: Connection closed]" ++ newline
              ++ "[Used echo({})]" ++ newline ++ "Done.")%string.
Proof. reflexivity. Qed.

(** * More properties on the scripted runtime *)

(** The prefix, on the plain answer. *)
Lemma plain_answer_starts_with_the_prefix :
  fst (Handlers.process_query a_handler "What tools are available?" plain_answer)
  = Returned "Assistant: You have an echo tool."
  /\ starts_with "Assistant: " "Assistant: You have an echo tool.".
Proof.
  split; [reflexivity|].
  apply (@process_query_answer_is_prefixed scripted a_handler "What tools are available?"
           plain_answer).
  reflexivity.
Defined.

(** A catalog that cannot be listed, and an engine that is down. *)
Lemma early_failures_on_the_script :
  (exists s',
      Handlers.process_query a_handler "echo hi" catalog_fails = (Raised server_down, s')
      /\ st_trace s' = st_trace catalog_fails ++ [EvListTools (Raised server_down)])
  /\ (exists s',
        Handlers.process_query a_handler "echo hi" first_call_fails = (Raised engine_down, s')
        /\ st_trace s'
           = st_trace first_call_fails
             ++ [EvListTools (Returned [echo_tool]);
                 EvCreate (first_request "echo hi" [echo_tool]) (Raised engine_down)]).
Proof.
  split.
  - eapply (proj1 (@first_call_failures_are_raised scripted a_handler "echo hi" catalog_fails)).
    reflexivity.
  - eapply (proj2 (@first_call_failures_are_raised scripted a_handler "echo hi"
                     first_call_fails)); reflexivity.
Defined.

(** A first response without choices. *)
Lemma first_response_without_choice :
  choices {| choices := [] |} = []
  /\ exists s',
       Handlers.process_query a_handler "echo hi" first_without_choice
       = (Raised index_error, s')
       /\ st_trace s'
          = st_trace first_without_choice
            ++ [EvListTools (Returned [echo_tool]);
                EvCreate (first_request "echo hi" [echo_tool])
                  (Returned {| choices := [] |})].
Proof.
  split; [reflexivity|].
  eapply (proj1 (@empty_choices_raise_index_error scripted a_handler "echo hi"
                   first_without_choice [echo_tool] _ {| choices := [] |} _
                   eq_refl eq_refl)).
  reflexivity.
Defined.

(** The ids of the echo round. *)
Lemma echo_turn_answers_call_1 :
  Forall decodable [echo_hi]
  /\ exists evs turns out2,
       st_trace (snd (Handlers.process_query a_handler "echo hi" echo_round))
       = st_trace echo_round ++ evs
       /\ engine_calls evs
          = [(first_request "echo hi" [echo_tool],
              Returned (completion (request_message [echo_hi])));
             ({| model := Handlers.MODEL; max_tokens := Handlers.MAX_TOKENS;
                 messages :=
                   [user_message "echo hi";
                    assistant_message (or_else (msg_content (request_message [echo_hi])) "")
                      [echo_hi]]
                   ++ turns;
                 tools := None |}, out2)]
       /\ map turn_id turns = map (fun tool_call => Some (id tool_call)) [echo_hi].
Proof.
  assert (Hdec : Forall decodable [echo_hi]).
  { repeat constructor. eexists. reflexivity. }
  split; [exact Hdec|].
  eapply (@tool_turns_answer_the_invocations scripted a_handler "echo hi" echo_round).
  - reflexivity.
  - reflexivity.
  - reflexivity.
  - reflexivity.
  - discriminate.
  - exact Hdec.
Defined.

(** A result with two text parts. *)
Lemma second_part_is_dropped :
  decode_arguments echo_hi = Returned (JDict [("text", JStr "hi")])
  /\ Handlers._execute_tool a_handler echo_hi two_parts
     = (Returned {| Handlers.log := "[Used echo({'text': 'hi'})]";
                    Handlers.tool_turn := tool_message "call_1" "one" |},
        record_event
          (EvCallTool "echo" (JDict [("text", JStr "hi")])
             (Returned {| content := [TextContent "one"; TextContent "two"] |}))
          two_parts
          {| environ := [("OPENAI_API_KEY", "sk-test")]; files := ["server.py"];
             replies := [] |}).
Proof.
  split; [reflexivity|].
  apply (proj2 (@only_the_first_part_is_used scripted a_handler echo_hi two_parts
                  (JDict [("text", JStr "hi")])
                  {| content := [TextContent "one"; TextContent "two"] |}
                  {| environ := [("OPENAI_API_KEY", "sk-test")]; files := ["server.py"];
                     replies := [] |}
                  eq_refl eq_refl) "one" [TextContent "two"] eq_refl).
Defined.

(** A result whose first part is an image. *)
Lemma image_first_is_an_error :
  content {| content := [OtherContent "ImageContent"; TextContent "two"] |}
  = OtherContent "ImageContent" :: [TextContent "two"]
  /\ Handlers._execute_tool a_handler echo_hi image_first
     = (Returned
          {| Handlers.log := "[Error: 'ImageContent' object has no attribute 'text']";
             Handlers.tool_turn :=
               tool_message "call_1" "Error: 'ImageContent' object has no attribute 'text'" |},
        record_event
          (EvCallTool "echo" (JDict [("text", JStr "hi")])
             (Returned {| content := [OtherContent "ImageContent"; TextContent "two"] |}))
          image_first
          {| environ := [("OPENAI_API_KEY", "sk-test")]; files := ["server.py"];
             replies := [] |}).
Proof.
  split; [reflexivity|].
  apply (@first_part_without_text_is_an_error scripted a_handler echo_hi image_first
           (JDict [("text", JStr "hi")])
           {| content := [OtherContent "ImageContent"; TextContent "two"] |}
           {| environ := [("OPENAI_API_KEY", "sk-test")]; files := ["server.py"];
              replies := [] |}
           "ImageContent" [TextContent "two"] eq_refl eq_refl eq_refl).
Defined.

(** A connection that is made. *)
Lemma connection_on_the_script :
  Path_exists (Path_resolve (Mcp_client.server_path a_client) (st_world listing_session))
    (st_world listing_session) = true
  /\ exists s',
       Mcp_client._connect_to_server a_client listing_session = (Returned 4%nat, s')
       /\ st_world s'
          = {| environ := [("OPENAI_API_KEY", "sk-test")]; files := ["server.py"];
               replies := [Listed (Returned [echo_tool])] |}
       /\ class_client_session s' = class_client_session listing_session
       /\ st_trace s'
          = st_trace listing_session
            ++ [EvExists "server.py" true;
                EvSpawn {| command := "/usr/bin/python3"; args := ["server.py"]; env := None |}
                  (Returned 3%nat);
                EvSession (Returned 4%nat); EvInitialize (Returned tt)].
Proof.
  split; [reflexivity|].
  apply (@connect_starts_the_interpreter scripted a_client listing_session
           3%nat
           {| environ := [("OPENAI_API_KEY", "sk-test")]; files := ["server.py"];
              replies := [Opened (Returned 4%nat); Greeted (Returned tt);
                          Listed (Returned [echo_tool])] |}
           4%nat
           {| environ := [("OPENAI_API_KEY", "sk-test")]; files := ["server.py"];
              replies := [Greeted (Returned tt); Listed (Returned [echo_tool])] |}
           tt
           {| environ := [("OPENAI_API_KEY", "sk-test")]; files := ["server.py"];
              replies := [Listed (Returned [echo_tool])] |});
    reflexivity.
Defined.

(** A chat without a credential. *)
Lemma chat_without_credential_is_refused :
  class_client_session connected_without_credential = Some 4%nat
  /\ Mcp_client.run_chat a_client connected_without_credential
     = (Returned tt,
        printing ["Error: OPENAI_API_KEY environment variable not set"]
          connected_without_credential).
Proof.
  split; [reflexivity|].
  apply (@run_chat_needs_the_credential scripted a_client connected_without_credential 4%nat).
  reflexivity.
Defined.


(** A server that starts and rejects the handshake is left as it is. *)
Lemma rejected_handshake_is_not_closed :
  spawn_attempts (st_trace (snd (Main.main (members_of "server.py") handshake_fails)))
  = [server_for "server.py"]
  /\ exists evs,
       st_trace (snd (Main.main (members_of "server.py") handshake_fails))
       = st_trace handshake_fails ++ evs
       /\ closings evs = []
       /\ fst (Main.main (members_of "server.py") handshake_fails) = Returned tt.
Proof.
  split; [reflexivity|].
  apply (@failed_connection_is_never_closed scripted (members_of "server.py") handshake_fails).
  right. exists (connect_failed server_down).
  exists (snd (Mcp_client._connect_to_server
                 {| Mcp_client.server_path := ns_server_path (members_of "server.py") |}
                 (record_event (EvExists (ns_server_path (members_of "server.py")) true)
                    handshake_fails (st_world handshake_fails)))).
  reflexivity.
Defined.

(** * The chat loop on the console *)

(** [Quit], with spaces around it. *)
Lemma spaced_quit_ends_the_chat :
  (stdin_input (newline ++ "You: ") (st_world (console_state [] ["  Quit "]))
   = (Returned "  Quit ", (fst (st_world (console_state [] ["  Quit "])), []))
   /\ ascii_strip "  Quit " <> ""
   /\ ascii_lower (ascii_strip "  Quit ") = "quit")
  /\ console_chat 1 (console_state [] ["  Quit "])
     = (Returned (Some tt),
        printing [(newline ++ "MCP Client's Chat Started!")%string;
                  "Type your queries or 'quit' to exit.";
                  (newline ++ "Goodbye!")%string]
          (after_input (console_state [] ["  Quit "])
             (fst (st_world (console_state [] ["  Quit "])), []))).
Proof.
  split; [split; [reflexivity|split; [discriminate|reflexivity]]|].
  apply (@quit_ends_the_chat console stdin_input ascii_strip ascii_lower
           (Handlers.process_query console_handler) 0 (console_state [] ["  Quit "])
           "  Quit " (fst (st_world (console_state [] ["  Quit "])), [])).
  - reflexivity.
  - discriminate.
  - reflexivity.
Defined.

(** The blank line of the short chat. *)
Lemma blank_line_of_the_short_chat :
  ascii_strip "   " = ""
  /\ console_loop 3 short_chat
     = console_loop 2
         (after_input short_chat
            (fst (st_world short_chat), [" What tools are available? "; "Quit"])).
Proof.
  split; [reflexivity|].
  apply (@blank_line_is_skipped console stdin_input ascii_strip ascii_lower
           (Handlers.process_query console_handler) 2 short_chat "   "
           (fst (st_world short_chat), [" What tools are available? "; "Quit"]));
    reflexivity.
Defined.

(** The question of the troubled chat. *)
Lemma failed_query_is_reported :
  (ascii_strip "hello" <> "" /\ ascii_lower (ascii_strip "hello") <> "quit")
  /\ console_loop 2 troubled_chat
     = console_loop 1
         (match Handlers.process_query console_handler (ascii_strip "hello")
                  (after_input troubled_chat (fst (st_world troubled_chat), ["quit"])) with
          | (Returned answer, s2) => printing [(newline ++ answer)%string] s2
          | (Raised e, s2) => printing [(newline ++ "Error: " ++ str_exn e)%string] s2
          end).
Proof.
  split; [split; discriminate|].
  apply (@query_is_processed_once console stdin_input ascii_strip ascii_lower
           (Handlers.process_query console_handler) 1 troubled_chat "hello"
           (fst (st_world troubled_chat), ["quit"])).
  - reflexivity.
  - discriminate.
  - discriminate.
Defined.

(** Nothing to read: three passes, three error lines, and the loop goes on. *)
Lemma closed_stdin_keeps_looping :
  snd (st_world closed_stdin) = []
  /\ exists lines s',
       console_loop 3 closed_stdin = (Returned None, s')
       /\ st_trace s' = st_trace closed_stdin ++ map EvPrint lines
       /\ length lines = 3%nat
       /\ Forall (starts_with (newline ++ "Error: ")) lines.
Proof.
  split; [reflexivity|].
  apply (@closed_input_never_ends console stdin_input ascii_strip ascii_lower
           (Handlers.process_query console_handler)
           (fun w => snd w = [])).
  - intros [w lines] Hw. cbn [snd] in Hw. subst lines.
    exists end_of_file, (w, []). split; reflexivity.
  - reflexivity.
Defined.

(** The short chat: the blank line is passed over, the question is answered,
    [Quit] ends the chat. *)
Example short_chat_output :
  fst (console_chat 3 short_chat) = Returned (Some tt)
  /\ printed (st_trace (snd (console_chat 3 short_chat)))
     = [(newline ++ "MCP Client's Chat Started!")%string;
        "Type your queries or 'quit' to exit.";
        (newline ++ "Assistant: You have an echo tool.")%string;
        (newline ++ "Goodbye!")%string].
Proof. split; reflexivity. Qed.
